(** * Fee calculator and ledger store of the NIL blockchain lambda

    A shallow embedding of [src/lambda/fee_service.py] and
    [src/lambda/dynamodb_service.py], of the fee methods of
    [src/lambda/integration_handler.py] and of the fee endpoints of
    [src/lambda/main.py].

    - Python [float] is IEEE-754 binary64.  It is modelled bit for bit with
      the executable specification [SpecFloat] of the Standard Library
      (round to nearest, ties to even), so that every concrete run of the fee
      calculator can be evaluated inside Rocq.
    - Python dictionaries are finite maps ([gmap]) from attribute names to
      values; the DynamoDB table is a finite map from the primary key
      [(PK, SK)] to items.
    - The service methods run in a small state-and-exception monad over the
      table; the UUID generator, the clock and the failures of the backend
      are read from an explicit [Runtime]. *)

From Stdlib Require Import ZArith QArith Qpower Lia.
From Stdlib Require Import Floats.SpecFloat.
From stdpp Require Import base option list strings pretty gmap fin_maps sorting.

Local Open Scope Z_scope.

(** ** Python exceptions and results *)

Inductive Exn : Type :=
| ZeroDivisionError
| ValueError
| TypeError
| BackendError (code : string).

Inductive Result (A : Type) : Type :=
| Ok (a : A)
| Raise (e : Exn).
Arguments Ok {A} a.
Arguments Raise {A} e.

(** ** Python floats: IEEE-754 binary64 *)

Module Float64.

Definition prec : Z := 53.
Definition emax : Z := 1024.

Definition float : Type := spec_float.

Definition pos_zero : float := S754_zero false.

(** [float(n)] for an integer [n]: the nearest double (exact below 2^53). *)
Definition of_Z (n : Z) : float := binary_normalize prec emax n 0 false.

(** The correctly rounded quotient [p / q] of two positive integers. *)
Definition ratio (s : bool) (p q : positive) : float :=
  SFdiv prec emax (S754_finite s p 0) (S754_finite false q 0).

(** A decimal literal [n * 10^-k], read as Python reads source literals:
    [dec 1250 2] is [12.50], [dec 35 3] is [0.035]. *)
Definition dec (n : Z) (k : nat) : float :=
  match n with
  | Z0 => pos_zero
  | Zpos p => ratio false p (Z.to_pos (10 ^ Z.of_nat k))
  | Zneg p => ratio true p (Z.to_pos (10 ^ Z.of_nat k))
  end.

Definition add (x y : float) : float := SFadd prec emax x y.
Definition sub (x y : float) : float := SFsub prec emax x y.
Definition mul (x y : float) : float := SFmul prec emax x y.

Definition is_zero (x : float) : bool :=
  match x with S754_zero _ => true | _ => false end.

(** [x / y]: Python raises [ZeroDivisionError] on a zero divisor (of either
    sign) and otherwise performs the IEEE division. *)
Definition truediv (x y : float) : Result float :=
  if is_zero y then Raise ZeroDivisionError else Ok (SFdiv prec emax x y).

Definition ltb (x y : float) : bool := SFltb x y.
Definition leb (x y : float) : bool := SFleb x y.
Definition gtb (x y : float) : bool := SFltb y x.

(** [min(a, b)] keeps its first argument unless the second is smaller. *)
Definition py_min (a b : float) : float := if ltb b a then b else a.

(** Nearest integer to [n / d] for [0 <= n] and [0 < d], ties to even. *)
Definition div_half_even (n d : Z) : Z :=
  let q := n / d in
  let r := n mod d in
  match 2 * r ?= d with
  | Lt => q
  | Gt => q + 1
  | Eq => if Z.even q then q else q + 1
  end.

(** The integer nearest to [m * 2^e * 10^k], ties to even. *)
Definition scaled_half_even (m : positive) (e : Z) (k : nat) : Z :=
  let n := Zpos m * 10 ^ Z.of_nat k in
  if 0 <=? e then n * 2 ^ e else div_half_even n (2 ^ (- e)).

(** [round(x, k)] for [k >= 0]: CPython rounds the exact value of [x] to [k]
    decimals (ties to even) and reads the decimal string back as the nearest
    double; NaN and the infinities round to themselves. *)
Definition py_round (x : float) (k : nat) : float :=
  match x with
  | S754_finite s m e =>
      match scaled_half_even m e k with
      | Zpos n => ratio s n (Z.to_pos (10 ^ Z.of_nat k))
      | _ => S754_zero s
      end
  | _ => x
  end.

(** The real number a finite float stands for. *)
Definition to_Q (x : float) : option Q :=
  match x with
  | S754_zero _ => Some 0%Q
  | S754_finite s m e => Some (inject_Z (cond_Zopp s (Zpos m)) * 2 ^ e)%Q
  | _ => None
  end.

(** The integer [m * 2^(e - emin)]: a finite value counted in units of the
    smallest subnormal. *)
Definition scaled (m : positive) (e : Z) : Z := Zpos m * 2 ^ (e + 1074).

(** A float as it exists at run time: the mantissa is canonical. *)
Definition valid (x : float) : bool := valid_binary prec emax x.

End Float64.

Import Float64.

(** ** fee_service.py *)

Module FeeService.

(** [@dataclass class FeeStructure] with its defaults. *)
Record FeeStructure : Type := {
  transaction_fee_percent : float;
  deployment_fee_usd : float;
  subscription_fee_monthly_usd : float;
  premium_feature_fee_min_usd : float;
  premium_feature_fee_max_usd : float;
  max_effective_fee_percent : float
}.

Definition FeeStructure_default : FeeStructure := {|
  transaction_fee_percent := dec 40 1;
  deployment_fee_usd := dec 1250 2;
  subscription_fee_monthly_usd := dec 1500 2;
  premium_feature_fee_min_usd := dec 500 2;
  premium_feature_fee_max_usd := dec 1000 2;
  max_effective_fee_percent := dec 110 1
|}.

(** The ["competitiveness"] entry of the result.  The f-string
    ["Undercut by {round(15 - effective_percent, 1)}%"] is kept as the number
    it interpolates. *)
Record Competitiveness : Type := {
  vs_nil_platforms_undercut : float;
  vs_blockchain_norms : string;
  retention_score : string
}.

(** The dictionary returned by [calculate_deal_fees]; the descriptive
    ["fee_structure"] entry is the structure the strings are rendered from. *)
Record FeeBreakdown : Type := {
  deal_value_usd : float;
  transaction_fee_usd : float;
  fb_deployment_fee_usd : float;
  subscription_fee_usd : float;
  premium_fee_usd : float;
  total_effective_fee_usd : float;
  effective_fee_percentage : float;
  competitiveness : Competitiveness;
  fee_structure_info : FeeStructure
}.

(** [effective_percent = (total_fee / deal_value_usd) * 100] *)
Definition effective_percent_of (total_fee deal_value : float) : Result float :=
  match truediv total_fee deal_value with
  | Ok q => Ok (mul q (of_Z 100))
  | Raise e => Raise e
  end.

(** The tier adjustment of the transaction fee (the body of the [if]). *)
Definition adjust_transaction_fee (transaction_fee deal_value : float) : float :=
  if ltb deal_value (of_Z 1000) then
    py_min transaction_fee (mul deal_value (dec 3 2))
  else if ltb deal_value (of_Z 2000) then
    py_min transaction_fee (mul deal_value (dec 35 3))
  else transaction_fee.

(** The values of the local variables [transaction_fee], [total_fee] and
    [effective_percent] when the [return] statement is reached. *)
Definition deal_fee_locals (fs : FeeStructure) (deal_value : float)
  : Result (float * float * float) :=
  match truediv (transaction_fee_percent fs) (of_Z 100) with
  | Raise e => Raise e
  | Ok rate =>
    let transaction_fee := mul deal_value rate in
    let deployment_fee := deployment_fee_usd fs in
    let subscription_fee := subscription_fee_monthly_usd fs in
    let premium_fee := pos_zero in
    let total_fee :=
      add (add (add transaction_fee deployment_fee) subscription_fee) premium_fee in
    match effective_percent_of total_fee deal_value with
    | Raise e => Raise e
    | Ok effective_percent =>
      if gtb effective_percent (max_effective_fee_percent fs) then
        let transaction_fee := adjust_transaction_fee transaction_fee deal_value in
        let total_fee :=
          add (add (add transaction_fee deployment_fee) subscription_fee) premium_fee in
        match effective_percent_of total_fee deal_value with
        | Raise e => Raise e
        | Ok effective_percent => Ok (transaction_fee, total_fee, effective_percent)
        end
      else Ok (transaction_fee, total_fee, effective_percent)
    end
  end.

Definition calculate_deal_fees (fs : FeeStructure) (deal_value : float)
  : Result FeeBreakdown :=
  match deal_fee_locals fs deal_value with
  | Raise e => Raise e
  | Ok (transaction_fee, total_fee, effective_percent) =>
    Ok {| deal_value_usd := deal_value;
          transaction_fee_usd := py_round transaction_fee 2;
          fb_deployment_fee_usd := deployment_fee_usd fs;
          subscription_fee_usd := subscription_fee_monthly_usd fs;
          premium_fee_usd := pos_zero;
          total_effective_fee_usd := py_round total_fee 2;
          effective_fee_percentage := py_round effective_percent 1;
          competitiveness := {|
            vs_nil_platforms_undercut := py_round (sub (of_Z 15) effective_percent) 1;
            vs_blockchain_norms := "Competitive (matches Request Network 1-5%)";
            retention_score :=
              if ltb effective_percent (of_Z 11) then "High" else "Medium" |};
          fee_structure_info := fs |}
  end.

(** [validate_premium_feature_fee]: the chained comparison
    [min <= fee_usd <= max]. *)
Definition validate_premium_feature_fee (fs : FeeStructure) (fee_usd : float) : bool :=
  leb (premium_feature_fee_min_usd fs) fee_usd
  && leb fee_usd (premium_feature_fee_max_usd fs).

(** Whether the effective percentage the calculator ends with, before
    rounding, is over the cap for a whole-dollar deal value. *)
Definition over_cap (d : Z) : bool :=
  match deal_fee_locals FeeStructure_default (of_Z d) with
  | Ok (_, _, eff) => gtb eff (max_effective_fee_percent FeeStructure_default)
  | Raise _ => false
  end.

Definition zrange (lo : Z) (n : nat) : list Z :=
  (λ i, lo + Z.of_nat i) <$> seq 0 n.

(** The caller is told that its argument is out of range: the function
    raises [ValueError] (the specification's [InvalidInput]). *)
Definition rejects_input {A} (r : Result A) : Prop :=
  match r with
  | Raise ValueError => True
  | _ => False
  end.

(** *** The other methods of the fee service *)

(** [timedelta(days=d)] in microseconds. *)
Definition days (d : Z) : Z := d * 86400000000.

(** The dictionary returned by [calculate_subscription_fee]. *)
Record SubscriptionTerms : Type := {
  billing_cycle : string;
  monthly_fee_usd : float;
  total_period_fee_usd : float;
  next_billing_date : string;
  features_included : list string;
  terms_competitiveness : string
}.

(** [calculate_subscription_fee]: [now] is the reading of [datetime.now()]
    in microseconds, [isoformat] the method of that name. *)
Definition calculate_subscription_fee (fs : FeeStructure)
    (isoformat : Z → string) (now : Z) (cycle : string) : SubscriptionTerms :=
  let base_monthly := subscription_fee_monthly_usd fs in
  let '(monthly_fee, total_periods) :=
    if String.eqb cycle "quarterly" then (dec 1250 2, 3)
    else if String.eqb cycle "annual" then (dec 1000 2, 12)
    else (base_monthly, 1) in
  let next_billing :=
    if String.eqb cycle "quarterly" then now + days 90
    else if String.eqb cycle "annual" then now + days 365
    else now + days 30 in
  {| billing_cycle := cycle;
     monthly_fee_usd := monthly_fee;
     total_period_fee_usd := mul monthly_fee (of_Z total_periods);
     next_billing_date := isoformat next_billing;
     features_included :=
       ["Real-time transaction monitoring"; "Basic analytics dashboard";
        "Email notifications"; "API access for integration"];
     terms_competitiveness := "Undercuts traditional NIL platforms by 50-70%" |}.

(** The dictionary returned by [get_fee_analytics_summary].  The entries
    of ["fee_structure"] and ["retention_focus"], which render the numbers
    of the structure, are kept as the structure; the fixed text of
    ["vs_nil_platforms"] is left out.  The sample calculations are called
    with the integers 500, 1000 and 5000, which the calculator reads as the
    floats of the same value in every operation. *)
Record FeeSummary : Type := {
  summary_fee_structure : FeeStructure;
  target_effective_fee : string;
  summary_vs_blockchain_norms : string;
  small_deal_500 : FeeBreakdown;
  medium_deal_1000 : FeeBreakdown;
  large_deal_5000 : FeeBreakdown
}.

Definition get_fee_analytics_summary (fs : FeeStructure) : Result FeeSummary :=
  match calculate_deal_fees fs (of_Z 500) with
  | Raise e => Raise e
  | Ok small =>
    match calculate_deal_fees fs (of_Z 1000) with
    | Raise e => Raise e
    | Ok medium =>
      match calculate_deal_fees fs (of_Z 5000) with
      | Raise e => Raise e
      | Ok large =>
        Ok {| summary_fee_structure := fs;
              target_effective_fee := "6-8% total per deal";
              summary_vs_blockchain_norms := "Matches Request Network (1-5%)";
              small_deal_500 := small;
              medium_deal_1000 := medium;
              large_deal_5000 := large |}
      end
    end
  end.
End FeeService.

(** ** dynamodb_service.py *)

Module Ledger.

(** *** Items and the table *)

(** Attribute values as the service writes them.  [VDecimal x] is
    [Decimal(str(x))] for a float [x]: the shortest decimal that reads back
    as [x]. *)
Inductive Value : Type :=
| VStr (s : string)
| VInt (n : Z)
| VFloat (x : float)
| VDecimal (x : float).

Abbreviation Item := (gmap string Value).
Abbreviation Table := (gmap (string * string) Item).

(** What the process reads from outside: [uuid.uuid4()], the clock behind
    [datetime.utcnow()] (microseconds), [datetime.isoformat], the reading of
    a string by [float(...)], and whether the n-th request sent to the table
    fails.  [backend_fault] stands for any exception the boto3 call can end
    in: the endpoint cannot be reached, the request is throttled or refused,
    or the client cannot serialise a value of the item. *)
Record Runtime : Type := {
  uuid4 : nat → string;
  utcnow : nat → Z;
  isoformat : Z → string;
  float_of_str : string → option float;
  backend_fault : nat → option Exn
}.

Record World : Type := {
  table : Table;
  uuid_calls : nat;
  clock_reads : nat;
  backend_calls : nat
}.

Definition M (A : Type) : Type := World → Result A * World.

#[global] Instance M_ret : MRet M := λ A a w, (Ok a, w).
#[global] Instance M_bind : MBind M := λ A B f m w,
  match m w with
  | (Ok a, w') => f a w'
  | (Raise e, w') => (Raise e, w')
  end.

Definition raise {A} (e : Exn) : M A := λ w, (Raise e, w).

(** [try: body except Exception: handler] *)
Definition try_except {A} (body : M A) (handler : Exn → M A) : M A := λ w,
  match body w with
  | (Raise e, w') => handler e w'
  | r => r
  end.

(** Key and filter conditions ([boto3.dynamodb.conditions]). *)
Inductive Cond : Type :=
| AttrEq (a : string) (v : string)
| AttrBeginsWith (a : string) (p : string)
| AttrBetween (a : string) (lo hi : string)
| CondAnd (c1 c2 : Cond)
| CondOr (c1 c2 : Cond).

Definition str_attr (a : string) (item : Item) : option string :=
  match item !! a with
  | Some (VStr s) => Some s
  | _ => None
  end.

Fixpoint eval_cond (c : Cond) (item : Item) : bool :=
  match c with
  | AttrEq a v =>
      match str_attr a item with Some s => String.eqb s v | None => false end
  | AttrBeginsWith a p =>
      match str_attr a item with Some s => String.prefix p s | None => false end
  | AttrBetween a lo hi =>
      match str_attr a item with
      | Some s => String.leb lo s && String.leb s hi
      | None => false
      end
  | CondAnd c1 c2 => eval_cond c1 item && eval_cond c2 item
  | CondOr c1 c2 => eval_cond c1 item || eval_cond c2 item
  end.

(** The table and its two global secondary indexes. *)
Inductive Index : Type := Primary | GSI1 | GSI2.

Definition partition_attr (ix : Index) : string :=
  match ix with Primary => "PK" | GSI1 => "GSI1PK" | GSI2 => "GSI2PK" end.

Definition sort_attr (ix : Index) : string :=
  match ix with Primary => "SK" | GSI1 => "GSI1SK" | GSI2 => "GSI2SK" end.

(** An item shows up in an index when it carries both key attributes. *)
Definition in_index (ix : Index) (item : Item) : bool :=
  match str_attr (partition_attr ix) item, str_attr (sort_attr ix) item with
  | Some _, Some _ => true
  | _, _ => false
  end.

Definition sort_key (ix : Index) (item : Item) : string :=
  match str_attr (sort_attr ix) item with Some s => s | None => "" end.

Definition sort_le (ix : Index) (i j : Item) : Prop :=
  String.le (sort_key ix i) (sort_key ix j).

#[global] Instance sort_le_dec ix : RelDecision (sort_le ix).
Proof. intros i j. unfold sort_le. apply _. Defined.

Definition rows (t : Table) : list Item := (map_to_list t).*2.

(** The rows a [Query] against index [ix] returns: the matching items of
    the index in the order of its sort key (descending when
    [ScanIndexForward] is false), cut at [Limit].  The response is taken to
    hold every matching row: the service reads ['Items'] of the first page
    and never follows [LastEvaluatedKey]. *)
Definition select (ix : Index) (c : Cond) (forward : bool)
    (limit : option nat) (t : Table) : list Item :=
  let hits := filter (λ i, in_index ix i && eval_cond c i) (rows t) in
  let sorted := merge_sort (sort_le ix) hits in
  let ordered := if forward then sorted else reverse sorted in
  match limit with Some n => take n ordered | None => ordered end.

(** *** The calls the service makes *)

(** The world after one more UUID, clock reading or request, and after an
    item is stored under its primary key. *)
Definition tick_uuid (w : World) : World :=
  {| table := table w; uuid_calls := S (uuid_calls w);
     clock_reads := clock_reads w; backend_calls := backend_calls w |}.

Definition tick_clock (w : World) : World :=
  {| table := table w; uuid_calls := uuid_calls w;
     clock_reads := S (clock_reads w); backend_calls := backend_calls w |}.

Definition tick_backend (w : World) : World :=
  {| table := table w; uuid_calls := uuid_calls w;
     clock_reads := clock_reads w; backend_calls := S (backend_calls w) |}.

Definition store (pk sk : string) (item : Item) (w : World) : World :=
  {| table := <[(pk, sk) := item]> (table w); uuid_calls := uuid_calls w;
     clock_reads := clock_reads w; backend_calls := backend_calls w |}.

(** Reading a key off a dictionary literal. *)
Fixpoint assoc {V} (k : string) (l : list (string * V)) : option V :=
  match l with
  | [] => None
  | (k', v) :: l => if String.eqb k' k then Some v else assoc k l
  end.

Section Service.
Context (rt : Runtime).

Definition generate_id : M string := λ w,
  (Ok (uuid4 rt (uuid_calls w)), tick_uuid w).

Definition datetime_utcnow : M Z := λ w,
  (Ok (utcnow rt (clock_reads w)), tick_clock w).

Definition get_timestamp : M string :=
  now ← datetime_utcnow; mret (isoformat rt now).

Definition timedelta_days (d : Z) : Z := d * 86400000000.

(** One request to the backend: it goes through or raises. *)
Definition backend_call : M unit := λ w,
  match backend_fault rt (backend_calls w) with
  | Some e => (Raise e, tick_backend w)
  | None => (Ok tt, tick_backend w)
  end.

Definition read_table : M Table := λ w, (Ok (table w), w).

Definition write_table (pk sk : string) (item : Item) : M unit := λ w,
  (Ok tt, store pk sk item w).

(** [table.put_item(Item=item)]: the item replaces whatever is stored under
    its primary key. *)
Definition put_item (item : Item) : M unit :=
  _ ← backend_call;
  match str_attr "PK" item, str_attr "SK" item with
  | Some pk, Some sk => write_table pk sk item
  | _, _ => raise (BackendError "ValidationException")
  end.

(** [table.get_item(Key=...).get('Item')] *)
Definition get_item (pk sk : string) : M (option Item) :=
  _ ← backend_call; t ← read_table; mret (t !! (pk, sk)).

(** [table.query(...).get('Items', [])] *)
Definition query (ix : Index) (c : Cond) (forward : bool) (limit : option nat)
  : M (list Item) :=
  _ ← backend_call; t ← read_table; mret (select ix c forward limit t).

(** [table.scan(FilterExpression=...).get('Items', [])] *)
Definition scan (c : Cond) : M (list Item) :=
  _ ← backend_call; t ← read_table;
  mret (filter (λ i, eval_cond c i) (rows t)).

(** *** User management *)

Definition create_user (user_id email role : string) : M Item :=
  created_at ← get_timestamp;
  updated_at ← get_timestamp;
  let item : Item := list_to_map [
    ("PK", VStr ("USER#" +:+ user_id));
    ("SK", VStr "METADATA");
    ("email", VStr email);
    ("role", VStr role);
    ("created_at", VStr created_at);
    ("updated_at", VStr updated_at) ] in
  _ ← put_item item;
  mret item.

Definition get_user (user_id : string) : M (option Item) :=
  get_item ("USER#" +:+ user_id) "METADATA".

(** *** Contract management *)

Definition create_contract (user_id athlete_wallet sponsor_wallet
    contract_address abi : string) (appearances_required payment_amount : Z)
    (platform_fee_percent deployment_fee : float) : M Item :=
  contract_id ← generate_id;
  created_at ← get_timestamp;
  let item : Item := list_to_map [
    ("PK", VStr ("CONTRACT#" +:+ contract_id));
    ("SK", VStr "METADATA");
    ("user_id", VStr user_id);
    ("athlete_wallet", VStr athlete_wallet);
    ("sponsor_wallet", VStr sponsor_wallet);
    ("address", VStr contract_address);
    ("abi", VStr abi);
    ("appearances_required", VInt appearances_required);
    ("payment_amount", VInt payment_amount);
    ("platform_fee_percent", VFloat platform_fee_percent);
    ("deployment_fee", VFloat deployment_fee);
    ("created_at", VStr created_at);
    ("updated_at", VStr created_at);
    ("status", VStr "active");
    ("GSI1PK", VStr ("WALLET#" +:+ athlete_wallet));
    ("GSI1SK", VStr ("CONTRACT#" +:+ created_at));
    ("GSI2PK", VStr "CONTRACT");
    ("GSI2SK", VStr created_at) ] in
  _ ← put_item item;
  mret item.

Definition get_contract (contract_id : string) : M (option Item) :=
  get_item ("CONTRACT#" +:+ contract_id) "METADATA".

Definition get_user_contracts (user_id : string) : M (list Item) :=
  query Primary
    (CondAnd (AttrEq "PK" ("USER#" +:+ user_id)) (AttrBeginsWith "SK" "CONTRACT"))
    true None.

(** *** Transaction management *)

Definition log_transaction (contract_id tx_hash tx_type : string) (amount : Z)
    (recipient_wallet : string) : M Item :=
  tx_id ← generate_id;
  created_at ← get_timestamp;
  let item : Item := list_to_map [
    ("PK", VStr ("CONTRACT#" +:+ contract_id));
    ("SK", VStr ("TX#" +:+ tx_id));
    ("tx_hash", VStr tx_hash);
    ("type", VStr tx_type);
    ("amount", VInt amount);
    ("recipient_wallet", VStr recipient_wallet);
    ("created_at", VStr created_at);
    ("GSI1PK", VStr ("WALLET#" +:+ recipient_wallet));
    ("GSI1SK", VStr ("TX#" +:+ created_at));
    ("GSI2PK", VStr "TX");
    ("GSI2SK", VStr created_at) ] in
  _ ← put_item item;
  mret item.

Definition get_contract_transactions (contract_id : string) : M (list Item) :=
  query Primary
    (CondAnd (AttrEq "PK" ("CONTRACT#" +:+ contract_id)) (AttrBeginsWith "SK" "TX#"))
    true None.

Definition get_wallet_transactions (wallet_address : string) (limit : nat)
  : M (list Item) :=
  query GSI1
    (CondAnd (AttrEq "GSI1PK" ("WALLET#" +:+ wallet_address))
             (AttrBeginsWith "GSI1SK" "TX#"))
    false (Some limit).

(** *** Fee management *)

Definition record_deployment_fee (user_id user_type contract_type : string)
    (fee_usd : float) : M Item :=
  fee_id ← generate_id;
  created_at ← get_timestamp;
  let item : Item := list_to_map [
    ("PK", VStr ("FEE#" +:+ fee_id));
    ("SK", VStr "DEPLOYMENT");
    ("user_id", VStr user_id);
    ("user_type", VStr user_type);
    ("contract_type", VStr contract_type);
    ("fee_usd", VDecimal fee_usd);
    ("status", VStr "completed");
    ("created_at", VStr created_at);
    ("GSI1PK", VStr ("USER#" +:+ user_id));
    ("GSI1SK", VStr ("FEE#" +:+ created_at));
    ("GSI2PK", VStr "FEE");
    ("GSI2SK", VStr created_at) ] in
  _ ← put_item item;
  mret item.

Definition record_subscription_fee (user_id user_type plan_name : string)
    (fee_usd : float) : M Item :=
  sub_id ← generate_id;
  created_at ← get_timestamp;
  now ← datetime_utcnow;
  let end_date :=
    if String.eqb plan_name "quarterly" then now + timedelta_days 90
    else if String.eqb plan_name "annual" then now + timedelta_days 365
    else now + timedelta_days 30 in
  let item : Item := list_to_map [
    ("PK", VStr ("USER#" +:+ user_id));
    ("SK", VStr ("SUB#" +:+ sub_id));
    ("plan", VStr plan_name);
    ("fee_usd", VDecimal fee_usd);
    ("start_date", VStr created_at);
    ("end_date", VStr (isoformat rt end_date));
    ("status", VStr "active");
    ("created_at", VStr created_at);
    ("GSI2PK", VStr "SUB");
    ("GSI2SK", VStr created_at) ] in
  _ ← put_item item;
  mret item.

Definition record_premium_fee (user_id user_type feature_name : string)
    (fee_usd : float) : M Item :=
  feature_id ← generate_id;
  created_at ← get_timestamp;
  let item : Item := list_to_map [
    ("PK", VStr ("USER#" +:+ user_id));
    ("SK", VStr ("PREMIUM#" +:+ feature_id));
    ("feature_name", VStr feature_name);
    ("fee_usd", VDecimal fee_usd);
    ("status", VStr "active");
    ("created_at", VStr created_at);
    ("GSI1PK", VStr ("USER#" +:+ user_id));
    ("GSI1SK", VStr ("PREMIUM#" +:+ created_at));
    ("GSI2PK", VStr "PREMIUM");
    ("GSI2SK", VStr created_at) ] in
  _ ← put_item item;
  mret item.

(** *** Analytics and reporting *)

(** [total_fees] starts as the integer [0] and becomes a float with the
    first fee added to it. *)
Inductive PyNum : Type :=
| PInt (n : Z)
| PFloat (x : float).

Record Overall : Type := {
  total_deals : Z;
  total_revenue : PyNum;
  avg_fee : PyNum
}.

(** The [analytics] dictionary; ['overall'] is [{}] until it is assigned. *)
Record Analytics : Type := {
  by_deal_size : list Item;
  overall : option Overall;
  top_users : list Item
}.

Definition lift {A} (r : Result A) : M A := λ w, (r, w).

(** [float(v)] for a stored attribute. *)
Definition py_float (v : Value) : Result float :=
  match v with
  | VDecimal x | VFloat x => Ok x
  | VInt n => Ok (of_Z n)
  | VStr s =>
      match float_of_str rt s with Some x => Ok x | None => Raise ValueError end
  end.

Definition num_add (t : PyNum) (x : float) : PyNum :=
  match t with
  | PInt n => PFloat (add (of_Z n) x)
  | PFloat y => PFloat (add y x)
  end.

Definition num_round (t : PyNum) (k : nat) : PyNum :=
  match t with
  | PInt n => PInt n
  | PFloat x => PFloat (py_round x k)
  end.

Definition num_float (t : PyNum) : float :=
  match t with PInt n => of_Z n | PFloat x => x end.

(** The [for item in items] loop over [(total_fees, fee_count)]. *)
Fixpoint sum_fees (items : list Item) (acc : PyNum * Z) : Result (PyNum * Z) :=
  match items with
  | [] => Ok acc
  | item :: rest =>
      match item !! "fee_usd" with
      | Some v =>
          match py_float v with
          | Ok x => sum_fees rest (num_add acc.1 x, acc.2 + 1)
          | Raise e => Raise e
          end
      | None => sum_fees rest acc
      end
  end.

Definition fee_filter : Cond :=
  CondOr (CondOr (AttrBeginsWith "PK" "FEE#") (AttrEq "GSI2PK" "SUB"))
         (AttrEq "GSI2PK" "PREMIUM").

Definition empty_analytics : Analytics :=
  {| by_deal_size := []; overall := None; top_users := [] |}.

Definition get_fee_analytics : M Analytics :=
  let analytics := empty_analytics in
  try_except
    (items ← scan fee_filter;
     acc ← lift (sum_fees items (PInt 0, 0));
     let total_fees := acc.1 in
     let fee_count := acc.2 in
     avg ← (if 0 <? fee_count then
              q ← lift (truediv (num_float total_fees) (of_Z fee_count));
              mret (PFloat (py_round q 2))
            else mret (PInt 0));
     mret {| by_deal_size := by_deal_size analytics;
             overall := Some {| total_deals := fee_count;
                                total_revenue := num_round total_fees 2;
                                avg_fee := avg |};
             top_users := top_users analytics |})
    (λ _, mret analytics).

Definition get_transactions_by_date_range (start_date end_date entity_type : string)
  : M (list Item) :=
  query GSI2
    (CondAnd (AttrEq "GSI2PK" entity_type) (AttrBetween "GSI2SK" start_date end_date))
    true None.

(** The contract together with the list stored under its ['transactions']
    key; an empty dictionary is falsy and is returned as it is. *)
Definition get_contract_for_compliance (contract_id : string)
  : M (option (Item * option (list Item))) :=
  contract ← get_contract contract_id;
  match contract with
  | Some c =>
      if bool_decide (c = ∅) then mret (Some (c, None))
      else
        transactions ← get_contract_transactions contract_id;
        mret (Some (c, Some transactions))
  | None => mret None
  end.

(** *** The operations under the names of the specification *)

Inductive FeeKind : Type := Deployment | Subscription | Premium.

(** [record_fee(kind, ...)] stands for the three [record_*_fee] methods. *)
Definition record_fee (kind : FeeKind) (user_id user_type descriptor : string)
    (amount_usd : float) : M Item :=
  match kind with
  | Deployment => record_deployment_fee user_id user_type descriptor amount_usd
  | Subscription => record_subscription_fee user_id user_type descriptor amount_usd
  | Premium => record_premium_fee user_id user_type descriptor amount_usd
  end.

(** The category under which each kind is filed in the second index. *)
Definition category_token (kind : FeeKind) : string :=
  match kind with
  | Deployment => "FEE"
  | Subscription => "SUB"
  | Premium => "PREMIUM"
  end.

(** [list_fees_in_range(kind, t0, t1)] is the range query on that category. *)
Definition list_fees_in_range (kind : FeeKind) (start_time end_time : string)
  : M (list Item) :=
  get_transactions_by_date_range start_time end_time (category_token kind).

(** Every public method of the service with its arguments. *)
Inductive Operation : Type :=
| OpCreateUser (user_id email role : string)
| OpGetUser (user_id : string)
| OpCreateContract (user_id athlete_wallet sponsor_wallet contract_address
    abi : string) (appearances_required payment_amount : Z)
    (platform_fee_percent deployment_fee : float)
| OpGetContract (contract_id : string)
| OpGetUserContracts (user_id : string)
| OpLogTransaction (contract_id tx_hash tx_type : string) (amount : Z)
    (recipient_wallet : string)
| OpGetContractTransactions (contract_id : string)
| OpGetWalletTransactions (wallet_address : string) (limit : nat)
| OpRecordDeploymentFee (user_id user_type contract_type : string) (fee_usd : float)
| OpRecordSubscriptionFee (user_id user_type plan_name : string) (fee_usd : float)
| OpRecordPremiumFee (user_id user_type feature_name : string) (fee_usd : float)
| OpGetFeeAnalytics
| OpGetTransactionsByDateRange (start_date end_date entity_type : string)
| OpGetContractForCompliance (contract_id : string).

Definition discard {A} (m : M A) : M unit := _ ← m; mret tt.

Definition run_op (op : Operation) : M unit :=
  match op with
  | OpCreateUser u e r => discard (create_user u e r)
  | OpGetUser u => discard (get_user u)
  | OpCreateContract u a s c abi n p f d =>
      discard (create_contract u a s c abi n p f d)
  | OpGetContract c => discard (get_contract c)
  | OpGetUserContracts u => discard (get_user_contracts u)
  | OpLogTransaction c h t a r => discard (log_transaction c h t a r)
  | OpGetContractTransactions c => discard (get_contract_transactions c)
  | OpGetWalletTransactions a l => discard (get_wallet_transactions a l)
  | OpRecordDeploymentFee u t c f => discard (record_deployment_fee u t c f)
  | OpRecordSubscriptionFee u t p f => discard (record_subscription_fee u t p f)
  | OpRecordPremiumFee u t n f => discard (record_premium_fee u t n f)
  | OpGetFeeAnalytics => discard get_fee_analytics
  | OpGetTransactionsByDateRange a b t =>
      discard (get_transactions_by_date_range a b t)
  | OpGetContractForCompliance c => discard (get_contract_for_compliance c)
  end.

End Service.

(** *** A runtime to run the model on concrete inputs *)

Fixpoint zfill (width : nat) (n : Z) : string :=
  match width with
  | O => ""
  | S w =>
      zfill w (n / 10)
      +:+ String (Ascii.ascii_of_N (48 + Z.to_N (n mod 10))) ""
  end.

(** Days since 1970-01-01 to the proleptic Gregorian [(year, month, day)]. *)
Definition civil_from_days (days : Z) : Z * Z * Z :=
  let z := days + 719468 in
  let era := z / 146097 in
  let doe := z - era * 146097 in
  let yoe := (doe - doe / 1460 + doe / 36524 - doe / 146096) / 365 in
  let doy := doe - (365 * yoe + yoe / 4 - yoe / 100) in
  let mp := (5 * doy + 2) / 153 in
  let d := doy - (153 * mp + 2) / 5 + 1 in
  let m := if mp <? 10 then mp + 3 else mp - 9 in
  (yoe + era * 400 + (if m <=? 2 then 1 else 0), m, d).

(** [datetime.isoformat()] of a naive UTC time given in microseconds since
    the epoch: the fraction is printed only when it is not zero. *)
Definition iso8601 (us : Z) : string :=
  let secs := us / 1000000 in
  let frac := us mod 1000000 in
  let '(y, m, d) := civil_from_days (secs / 86400) in
  let tod := secs mod 86400 in
  zfill 4 y +:+ "-" +:+ zfill 2 m +:+ "-" +:+ zfill 2 d +:+ "T"
  +:+ zfill 2 (tod / 3600) +:+ ":" +:+ zfill 2 (tod / 60 mod 60) +:+ ":"
  +:+ zfill 2 (tod mod 60)
  +:+ (if frac =? 0 then "" else "." +:+ zfill 6 frac).

(** Identifiers [id-000000], [id-000001], ...; a clock that starts on
    2024-01-15 10:30:00 UTC and advances by a quarter of a second per
    reading; a backend that answers every request. *)
Definition sample_runtime : Runtime := {|
  uuid4 := λ n, "id-" +:+ zfill 6 (Z.of_nat n);
  utcnow := λ n, 1705314600000000 + 250000 * Z.of_nat n;
  isoformat := iso8601;
  float_of_str := λ _, None;
  backend_fault := λ _, None
|}.

(** The same runtime with a backend that is down. *)
Definition offline_runtime : Runtime := {|
  uuid4 := uuid4 sample_runtime;
  utcnow := utcnow sample_runtime;
  isoformat := iso8601;
  float_of_str := λ _, None;
  backend_fault := λ _, Some (BackendError "EndpointConnectionError")
|}.

Definition empty_world : World :=
  {| table := ∅; uuid_calls := 0; clock_reads := 0; backend_calls := 0 |}.

(** The item a run ended with (the empty dictionary if it raised). *)
Definition item_of (r : Result Item * World) : Item :=
  match r.1 with Ok i => i | Raise _ => ∅ end.

(** Sample runs from the empty table: a contract for user [u1], and a fee of
    each kind paid by [u1]. *)
Definition sample_contract_run : Result Item * World :=
  create_contract sample_runtime "u1" "0xAthlete" "0xSponsor" "0xContract"
    "[]" 5 1000 (dec 40 1) (dec 1250 2) empty_world.

Definition sample_fee_run (kind : FeeKind) (amount_usd : float)
  : Result Item * World :=
  record_fee sample_runtime kind "u1" "athlete" "sponsorship" amount_usd
    empty_world.

(** *** Vocabulary of the statements *)

(** The record sits in the partition of the user. *)
Definition keyed_under_user (user_id : string) (item : Item) : Prop :=
  str_attr "PK" item = Some ("USER#" +:+ user_id).

(** The record carries the keys of the first index, filed under the user. *)
Definition user_indexed (user_id : string) (item : Item) : Prop :=
  str_attr "GSI1PK" item = Some ("USER#" +:+ user_id)
  ∧ is_Some (str_attr "GSI1SK" item).

Definition created_at_of (item : Item) : string :=
  match str_attr "created_at" item with Some s => s | None => "" end.

Definition created_le (i j : Item) : Prop :=
  String.le (created_at_of i) (created_at_of j).

(** Every item of the second index is filed under its creation time. *)
Definition time_indexed (t : Table) : Prop :=
  ∀ k (item : Item), t !! k = Some item → in_index GSI2 item = true →
    str_attr "GSI2SK" item = str_attr "created_at" item.

(** The worlds the service reaches from the empty table. *)
Inductive reachable (rt : Runtime) : World → Prop :=
| reach_empty : reachable rt empty_world
| reach_step op w : reachable rt w → reachable rt (run_op rt op w).2.

End Ledger.

(** ** integration_handler.py: the fee methods of [NILIntegrationService] *)

Module Integration.
Import Ledger.

(** The values of the dictionaries the handlers return.  An f-string is
    kept as its template and the values it interpolates; [JExn e] is
    [str(e)]. *)
#[local] Unset Elimination Schemes.
Inductive JValue : Type :=
| JNone
| JBool (b : bool)
| JInt (n : Z)
| JFloat (x : float)
| JStr (s : string)
| JDateTime (us : Z)
| JExn (e : Exn)
| JFmt (template : string) (args : list JValue)
| JList (l : list JValue)
| JDict (d : list (string * JValue)).
#[local] Set Elimination Schemes.

Abbreviation Dict := (list (string * JValue)).

(** [d.get(k, default)] *)
Definition dict_get (d : Dict) (k : string) (default : JValue) : JValue :=
  match assoc k d with Some v => v | None => default end.

(** [str(n)] for an integer. *)
Definition py_str (n : Z) : string := pretty n.

(** The fee computation of [create_sponsorship_opportunity]: the entries
    [transaction_fee_usd], [total_effective_fee_usd] and
    [effective_fee_percentage] of its [fee_breakdown], as a function of the
    local [deal_value_usd].  The first division is the one of
    [total_fee_percentage], which is evaluated before the request that
    creates the task is sent; the second is the one of the breakdown. *)
Definition sponsorship_fee_locals (deal_value_usd : float)
  : Result (float * float * float) :=
  let transaction_fee_usd := mul deal_value_usd (dec 4 2) in
  let deployment_fee_usd := dec 1250 2 in
  let subscription_fee_usd := dec 1500 2 in
  let premium_fee_usd := dec 0 2 in
  match truediv (add (add (add transaction_fee_usd deployment_fee_usd)
                        subscription_fee_usd) premium_fee_usd)
                deal_value_usd with
  | Raise e => Raise e
  | Ok q =>
    let total_fee_percentage := mul q (of_Z 100) in
    let transaction_fee_usd :=
      if gtb total_fee_percentage (dec 110 1) then
        if ltb deal_value_usd (of_Z 1000) then mul deal_value_usd (dec 3 2)
        else if ltb deal_value_usd (of_Z 2000) then mul deal_value_usd (dec 35 3)
        else transaction_fee_usd
      else transaction_fee_usd in
    let total :=
      add (add (add transaction_fee_usd deployment_fee_usd)
             subscription_fee_usd) premium_fee_usd in
    match truediv total deal_value_usd with
    | Raise e => Raise e
    | Ok q' => Ok (transaction_fee_usd, total, mul q' (of_Z 100))
    end
  end.

Section Service.
Context (rt : Runtime).

(** [except Exception as e: logger.error(...); raise] *)
Definition log_and_reraise {A} (body : M A) : M A :=
  try_except body (λ e, raise e).

Definition record_subscription_fee (user_id : Z)
    (user_type subscription_plan : string) (fee_usd : float) : M Dict :=
  log_and_reraise
    (result ← Ledger.record_subscription_fee rt (py_str user_id) user_type
                subscription_plan fee_usd;
     mret [("success", JBool true);
           ("subscription_fee_usd", JFloat fee_usd);
           ("plan", JStr subscription_plan);
           ("competitiveness",
            JStr "Undercuts traditional NIL platforms by 50-70%")]).

Definition record_premium_fee (user_id : Z)
    (user_type feature_name : string) (fee_usd : float) : M Dict :=
  log_and_reraise
    (result ← Ledger.record_premium_fee rt (py_str user_id) user_type
                feature_name fee_usd;
     mret [("success", JBool true);
           ("premium_fee_usd", JFloat fee_usd);
           ("feature", JStr feature_name);
           ("competitiveness",
            JStr "Flexible premium features undercutting enterprise solutions")]).

Definition record_deployment_fee (user_id : Z)
    (user_type contract_type : string) (fee_usd : float) : M Dict :=
  log_and_reraise
    (result ← Ledger.record_deployment_fee rt (py_str user_id) user_type
                contract_type fee_usd;
     mret [("success", JBool true);
           ("deployment_fee_usd", JFloat fee_usd);
           ("contract_type", JStr contract_type);
           ("competitiveness",
            JStr "Undercuts traditional deployment costs by 60-80%")]).

(** [_record_fee_analytics]: the three writes inside one [try], and an
    [except] clause that logs and returns. *)
Definition record_fee_analytics (deal_id deal_type : string)
    (deal_value_usd transaction_fee_usd deployment_fee_usd
     subscription_fee_usd premium_fee_usd : float)
    (user_id : Z) (user_type : string) : M unit :=
  try_except
    (_ ← Ledger.record_deployment_fee rt (py_str user_id) user_type
           "sponsorship" deployment_fee_usd;
     _ ← (if gtb subscription_fee_usd (of_Z 0) then
            discard (Ledger.record_subscription_fee rt (py_str user_id)
                       user_type "monitoring" subscription_fee_usd)
          else mret tt);
     _ ← (if gtb premium_fee_usd (of_Z 0) then
            discard (Ledger.record_premium_fee rt (py_str user_id)
                       user_type "sponsorship_premium" premium_fee_usd)
          else mret tt);
     mret tt)
    (λ _, mret tt).

End Service.
End Integration.

(** ** main.py: the fee endpoints *)

Module Api.
Import FeeService Ledger Integration.

Record HTTPException : Type := {
  status_code : Z;
  detail : JValue
}.

(** What a handler ends with: the value it returns or the [HTTPException]
    it raises. *)
Inductive Reply (A : Type) : Type :=
| Returns (body : A)
| Raises (e : HTTPException).
Arguments Returns {A} body.
Arguments Raises {A} e.

Definition Handler (A : Type) : Type := World → Reply A * World.

Record DeployContractRequest : Type := {
  deploy_user_id : Z;
  deploy_user_type : string;
  deploy_contract_type : string;
  deploy_fee_usd : float;
  deploy_payment_method : string
}.

Record SubscribeRequest : Type := {
  sub_user_id : Z;
  sub_user_type : string;
  sub_plan_name : string;
  sub_billing_cycle : string;
  sub_payment_method : string
}.

Record PremiumFeatureRequest : Type := {
  prem_user_id : Z;
  prem_user_type : string;
  prem_feature_name : string;
  prem_feature_fee_usd : float;
  prem_payment_method : string;
  prem_feature_config : JValue
}.

(** The body of [/fee-analytics]. *)
Record FeeAnalyticsResponse : Type := {
  fa_success : bool;
  fa_analytics : Analytics;
  fa_summary : FeeSummary
}.

Section Endpoints.
Context (rt : Runtime).

(** [except Exception as e: raise HTTPException(500, f"<prefix>{str(e)}")] *)
Definition internal_error (template : string) (e : Exn) : HTTPException :=
  {| status_code := 500; detail := JFmt template [JExn e] |}.

Definition deploy_contract (request : DeployContractRequest) : Handler Dict :=
  λ w,
  match Integration.record_deployment_fee rt (deploy_user_id request)
          (deploy_user_type request) (deploy_contract_type request)
          (deploy_fee_usd request) w with
  | (Ok result, w') =>
      (Returns
         [("success", JBool true);
          ("deployment_fee_usd", JFloat (deploy_fee_usd request));
          ("contract_type", JStr (deploy_contract_type request));
          ("competitiveness",
           dict_get result "competitiveness" (JStr "Competitive deployment fees"));
          ("fee_breakdown",
           JDict [("deployment_fee", JFloat (deploy_fee_usd request));
                  ("effective_percentage",
                   JFmt "{:.1f}%"
                     [JFloat (mul (SFdiv prec emax (deploy_fee_usd request)
                                     (of_Z 1000))
                                  (of_Z 100))])])],
       w')
  | (Raise e, w') =>
      (Raises (internal_error "Deployment fee processing failed: {}" e), w')
  end.

(** [/subscribe]; [now] is the reading of [datetime.now()]. *)
Definition subscribe_user (now : Z) (request : SubscribeRequest) : Handler Dict :=
  λ w,
  let cycle := sub_billing_cycle request in
  let '(next_billing, monthly_fee) :=
    if String.eqb cycle "monthly" then (now + days 30, dec 1500 2)
    else if String.eqb cycle "quarterly" then (now + days 90, dec 1250 2)
    else if String.eqb cycle "annual" then (now + days 365, dec 1000 2)
    else (now + days 30, dec 1500 2) in
  match Integration.record_subscription_fee rt (sub_user_id request)
          (sub_user_type request) (sub_plan_name request) monthly_fee w with
  | (Ok result, w') =>
      (Returns
         [("success", JBool true);
          ("user_id", JInt (sub_user_id request));
          ("user_type", JStr (sub_user_type request));
          ("plan_name", JStr (sub_plan_name request));
          ("monthly_fee_usd", JFloat monthly_fee);
          ("billing_cycle", JStr cycle);
          ("payment_method", JStr (sub_payment_method request));
          ("next_billing_date", JStr (isoformat rt next_billing));
          ("subscription_status", JStr "active");
          ("competitiveness",
           dict_get result "competitiveness"
             (JStr "Competitive subscription pricing"));
          ("message",
           JFmt "Subscription activated for ${}/month. Next billing: {:%Y-%m-%d}"
             [JFloat monthly_fee; JDateTime next_billing]);
          ("features_included",
           JList ([JStr "Real-time transaction monitoring";
                   JStr "Basic analytics dashboard";
                   JStr "Email notifications";
                   JStr "API access for integration"]
                  ++ (if String.eqb (sub_plan_name request) "premium"
                      then [JStr "Advanced analytics"; JStr "Custom reports"]
                      else [])))],
       w')
  | (Raise e, w') =>
      (Raises (internal_error "Subscription processing failed: {}" e), w')
  end.

(** [/premium-feature]: the range check comes first and raises the 400,
    which the handler lets through. *)
Definition purchase_premium_feature (request : PremiumFeatureRequest)
  : Handler Dict := λ w,
  let fee := prem_feature_fee_usd request in
  if negb (leb (dec 500 2) fee && leb fee (dec 1000 2)) then
    (Raises {| status_code := 400;
               detail := JStr "Premium feature fee must be between $5 and $10" |},
     w)
  else
    match Integration.record_premium_fee rt (prem_user_id request)
            (prem_user_type request) (prem_feature_name request) fee w with
    | (Ok result, w') =>
        (Returns
           [("success", JBool true);
            ("user_id", JInt (prem_user_id request));
            ("user_type", JStr (prem_user_type request));
            ("feature_name", JStr (prem_feature_name request));
            ("feature_fee_usd", JFloat fee);
            ("payment_method", JStr (prem_payment_method request));
            ("payment_status", JStr "pending");
            ("feature_config", prem_feature_config request);
            ("competitiveness",
             dict_get result "competitiveness" (JStr "Flexible premium features"));
            ("message",
             JFmt "Premium feature '{}' purchase initiated for ${}. Complete payment to activate."
               [JStr (prem_feature_name request); JFloat fee]);
            ("estimated_activation_time",
             JStr "2-5 minutes after payment confirmation")],
         w')
    | (Raise e, w') =>
        (Raises (internal_error "Premium feature purchase failed: {}" e), w')
    end.

(** [/fee-analytics]: the analytics of the store and the summary of the
    fee service, which runs on the default structure.  The three entries
    the handler copies out of the summary are kept as the summary. *)
Definition get_fee_analytics : Handler FeeAnalyticsResponse := λ w,
  match Ledger.get_fee_analytics rt w with
  | (Raise e, w') =>
      (Raises (internal_error "Fee analytics retrieval failed: {}" e), w')
  | (Ok analytics, w') =>
      match get_fee_analytics_summary FeeStructure_default with
      | Raise e =>
          (Raises (internal_error "Fee analytics retrieval failed: {}" e), w')
      | Ok fee_summary =>
          (Returns {| fa_success := true;
                      fa_analytics := analytics;
                      fa_summary := fee_summary |},
           w')
      end
  end.

End Endpoints.
End Api.

(** ** Vocabulary of the further statements *)

Module Vocabulary.
Import FeeService Ledger Integration Api.

(** The primary key a method writes to, if it writes. *)
Definition written_key (rt : Runtime) (op : Operation) (w : World)
  : option (string * string) :=
  let fresh := uuid4 rt (uuid_calls w) in
  match op with
  | OpCreateUser u _ _ => Some ("USER#" +:+ u, "METADATA")
  | OpCreateContract _ _ _ _ _ _ _ _ _ => Some ("CONTRACT#" +:+ fresh, "METADATA")
  | OpLogTransaction c _ _ _ _ => Some ("CONTRACT#" +:+ c, "TX#" +:+ fresh)
  | OpRecordDeploymentFee _ _ _ _ => Some ("FEE#" +:+ fresh, "DEPLOYMENT")
  | OpRecordSubscriptionFee u _ _ _ => Some ("USER#" +:+ u, "SUB#" +:+ fresh)
  | OpRecordPremiumFee u _ _ _ => Some ("USER#" +:+ u, "PREMIUM#" +:+ fresh)
  | _ => None
  end.

Definition creates_user (u : string) (op : Operation) : bool :=
  match op with
  | OpCreateUser u' _ _ => String.eqb u' u
  | _ => false
  end.

Definition creates_contract (op : Operation) : bool :=
  match op with
  | OpCreateContract _ _ _ _ _ _ _ _ _ => true
  | _ => false
  end.

(** The methods that record a fee. *)
Definition records_fee (op : Operation) : bool :=
  match op with
  | OpRecordDeploymentFee _ _ _ _
  | OpRecordSubscriptionFee _ _ _ _
  | OpRecordPremiumFee _ _ _ _ => true
  | _ => false
  end.

(** The attribute is a string that starts with [p]. *)
Definition attr_begins_with (a p : string) (item : Item) : Prop :=
  ∃ s, str_attr a item = Some s ∧ String.prefix p s = true.

(** The item can be read by the analytics loop: it has no [fee_usd], or one
    that [float] accepts. *)
Definition fee_readable (rt : Runtime) (item : Item) : Prop :=
  match item !! "fee_usd" with
  | Some v => ∃ x, py_float rt v = Ok x
  | None => True
  end.

(** Every stored [fee_usd] can be read by the analytics loop. *)
Definition fees_readable (rt : Runtime) (t : Table) : Prop :=
  ∀ k (item : Item), t !! k = Some item → fee_readable rt item.

(** The rows the analytics loop adds up: the rows of the scan that carry a
    [fee_usd]. *)
Definition fee_rows (t : Table) : list Item :=
  filter (λ i : Item, is_Some (i !! "fee_usd"))
    (filter (λ i, eval_cond fee_filter i) (rows t)).

(** Structural equality of two binary64 values. *)
Definition same_float (x y : float) : bool :=
  match x, y with
  | S754_zero a, S754_zero b => Bool.eqb a b
  | S754_infinity a, S754_infinity b => Bool.eqb a b
  | S754_nan, S754_nan => true
  | S754_finite a m e, S754_finite b n f =>
      Bool.eqb a b && Pos.eqb m n && Z.eqb e f
  | _, _ => false
  end.

(** The transaction fee the calculator ends with for the whole-dollar deal
    [d], before rounding, is [rate] per cent of the deal value. *)
Definition charges_percent (d : Z) (rate : Z) : bool :=
  match deal_fee_locals FeeStructure_default (of_Z d) with
  | Ok (transaction_fee, _, _) =>
      same_float transaction_fee (mul (of_Z d) (dec rate 2))
  | Raise _ => false
  end.

(** The length in days of the period the store files a subscription under
    for a plan name, and the fee calculator answers for a billing cycle. *)
Definition period_days (name : string) : Z :=
  if String.eqb name "quarterly" then 90
  else if String.eqb name "annual" then 365
  else 30.

(** A runtime whose backend refuses the second request it receives and
    answers every other one. *)
Definition flaky_runtime : Runtime := {|
  uuid4 := uuid4 sample_runtime;
  utcnow := utcnow sample_runtime;
  isoformat := iso8601;
  float_of_str := λ _, None;
  backend_fault := λ n,
    if Nat.eqb n 1
    then Some (BackendError "ProvisionedThroughputExceededException")
    else None
|}.

(** Sample runs: a user created on the empty table, a transaction logged
    for the contract of [sample_contract_run], and the table after one
    deployment fee. *)
Definition sample_user_run : Result Item * World :=
  create_user sample_runtime "u1" "u1@example.org" "athlete" empty_world.

Definition sample_transaction_run : Result Item * World :=
  log_transaction sample_runtime "id-000000" "0xabc" "payment" 1000
    "0xAthlete" sample_contract_run.2.

Definition sample_fee_world : World :=
  (run_op sample_runtime
     (OpRecordDeploymentFee "u1" "athlete" "sponsorship" (dec 1250 2))
     empty_world).2.

(** Requests to run the endpoints on. *)
Definition sample_subscribe_request : SubscribeRequest :=
  {| sub_user_id := 7; sub_user_type := "athlete";
     sub_plan_name := "monitoring"; sub_billing_cycle := "annual";
     sub_payment_method := "stripe" |}.

Definition sample_premium_request (fee : float) : PremiumFeatureRequest :=
  {| prem_user_id := 7; prem_user_type := "athlete";
     prem_feature_name := "priority_oracle"; prem_feature_fee_usd := fee;
     prem_payment_method := "stripe"; prem_feature_config := JNone |}.

Definition sample_deploy_request (fee : float) : DeployContractRequest :=
  {| deploy_user_id := 7; deploy_user_type := "sponsor";
     deploy_contract_type := "sponsorship"; deploy_fee_usd := fee;
     deploy_payment_method := "stripe" |}.

End Vocabulary.

(** * Properties *)

(** ** Comparison of binary64 values *)

Module Float64Facts.
Import Float64.

Lemma digits2_pos_bounds (m : positive) :
  2 ^ (Zpos (digits2_pos m) - 1) <= Zpos m < 2 ^ Zpos (digits2_pos m).
Proof.
  induction m as [m IH|m IH|]; cbn [digits2_pos].
  - rewrite Pos2Z.inj_succ.
    replace (Z.succ (Z.pos (digits2_pos m)) - 1) with (Z.succ (Z.pos (digits2_pos m) - 1)) by lia.
    rewrite !Z.pow_succ_r by lia. lia.
  - rewrite Pos2Z.inj_succ.
    replace (Z.succ (Z.pos (digits2_pos m)) - 1) with (Z.succ (Z.pos (digits2_pos m) - 1)) by lia.
    rewrite !Z.pow_succ_r by lia. lia.
  - cbn. lia.
Qed.

Lemma bounded_inv m e :
  bounded prec emax m e = true ->
  -1074 <= e <= 971 /\ Zpos m < 2 ^ 53 /\ (-1074 < e -> 2 ^ 52 <= Zpos m).
Proof.
  unfold bounded, canonical_mantissa, fexp, SpecFloat.emin, prec, emax.
  intros [Hc He]%andb_prop.
  apply Z.eqb_eq in Hc. apply Z.leb_le in He.
  pose proof (digits2_pos_bounds m) as [Hlo Hhi].
  set (d := Zpos (digits2_pos m)) in *.
  assert (Hd : d <= 53 /\ (-1074 < e -> d = 53)) by lia.
  destruct Hd as [Hd1 Hd2].
  split; [lia|]. split.
  - eapply Z.lt_le_trans; [exact Hhi|]. apply Z.pow_le_mono_r; lia.
  - intros Hn. rewrite (Hd2 Hn) in Hlo. exact Hlo.
Qed.

Lemma compare_finite_pos m1 e1 m2 e2 :
  bounded prec emax m1 e1 = true -> bounded prec emax m2 e2 = true ->
  SFcompare (S754_finite false m1 e1) (S754_finite false m2 e2)
  = Some (scaled m1 e1 ?= scaled m2 e2).
Proof.
  intros (He1 & Hm1 & Hn1)%bounded_inv (He2 & Hm2 & Hn2)%bounded_inv.
  unfold scaled. cbn [SFcompare]. f_equal.
  assert (H53 : 2 ^ 53 = 2 * 2 ^ 52) by reflexivity.
  destruct (Z.compare_spec e1 e2) as [->|Hlt|Hgt].
  - change (Pos.compare_cont Eq m1 m2) with (Z.compare (Zpos m1) (Zpos m2)).
    assert (0 < 2 ^ (e2 + 1074)) by (apply Z.pow_pos_nonneg; lia).
    symmetry. destruct (Z.compare_spec (Zpos m1) (Zpos m2)) as [E|L|G].
    + rewrite E. apply Z.compare_refl.
    + apply Z.compare_lt_iff. nia.
    + apply Z.compare_gt_iff. nia.
  - symmetry. apply Z.compare_lt_iff.
    assert (0 < 2 ^ (e1 + 1074)) by (apply Z.pow_pos_nonneg; lia).
    assert (2 * 2 ^ (e1 + 1074) <= 2 ^ (e2 + 1074)).
    { rewrite <- Z.pow_succ_r by lia. apply Z.pow_le_mono_r; lia. }
    specialize (Hn2 ltac:(lia)). nia.
  - symmetry. apply Z.compare_gt_iff.
    assert (0 < 2 ^ (e2 + 1074)) by (apply Z.pow_pos_nonneg; lia).
    assert (2 * 2 ^ (e2 + 1074) <= 2 ^ (e1 + 1074)).
    { rewrite <- Z.pow_succ_r by lia. apply Z.pow_le_mono_r; lia. }
    specialize (Hn1 ltac:(lia)). nia.
Qed.

Lemma Qpow2_pos e : (0 < 2 ^ e)%Q.
Proof. apply Qpower_0_lt. reflexivity. Qed.

Lemma Qpow2_inject n : 0 <= n -> (2 ^ n == inject_Z (2 ^ n))%Q.
Proof. intros Hn. symmetry. apply (Zpower_Qpower 2 n Hn). Qed.

Lemma to_Q_scaled (v : Z) e :
  -1074 <= e ->
  (inject_Z v * 2 ^ e * inject_Z (2 ^ 1074) == inject_Z (v * 2 ^ (e + 1074)))%Q.
Proof.
  intros He. rewrite inject_Z_mult, <- (Qpow2_inject (e + 1074)) by lia.
  rewrite <- (Qpow2_inject 1074) by lia.
  rewrite Qpower_plus by discriminate. ring.
Qed.

Lemma Qle_scaled_l (c : Z) m e :
  -1074 <= e ->
  (inject_Z c <= inject_Z (Zpos m) * 2 ^ e)%Q <-> c * 2 ^ 1074 <= scaled m e.
Proof.
  intros He. unfold scaled.
  assert (HK : (0 < inject_Z (2 ^ 1074))%Q).
  { rewrite <- Qpow2_inject by lia. apply Qpow2_pos. }
  rewrite <- (Qmult_le_r _ _ _ HK), to_Q_scaled, <- inject_Z_mult by lia.
  rewrite <- Zle_Qle. reflexivity.
Qed.

Lemma Qle_scaled_r (c : Z) m e :
  -1074 <= e ->
  (inject_Z (Zpos m) * 2 ^ e <= inject_Z c)%Q <-> scaled m e <= c * 2 ^ 1074.
Proof.
  intros He. unfold scaled.
  assert (HK : (0 < inject_Z (2 ^ 1074))%Q).
  { rewrite <- Qpow2_inject by lia. apply Qpow2_pos. }
  rewrite <- (Qmult_le_r _ _ _ HK), to_Q_scaled, <- inject_Z_mult by lia.
  rewrite <- Zle_Qle. reflexivity.
Qed.

Lemma to_Q_neg m e : (inject_Z (Zneg m) * 2 ^ e < 0)%Q.
Proof.
  apply Qlt_le_trans with (0 * 2 ^ e)%Q.
  - apply Qmult_lt_compat_r; [apply Qpow2_pos|reflexivity].
  - rewrite Qmult_0_l. apply Qle_refl.
Qed.
End Float64Facts.


(** ** The fee calculator *)

Module FeeServiceProps.
Import Float64 Float64Facts FeeService.

Lemma five_repr : dec 500 2 = S754_finite false 5629499534213120 (-50).
Proof. vm_compute. reflexivity. Qed.

Lemma ten_repr : dec 1000 2 = S754_finite false 5629499534213120 (-49).
Proof. vm_compute. reflexivity. Qed.

Lemma leb_const_l mc ec (c : Z) m e :
  bounded prec emax mc ec = true -> scaled mc ec = c * 2 ^ 1074 ->
  bounded prec emax m e = true ->
  leb (S754_finite false mc ec) (S754_finite false m e) = true
  <-> (inject_Z c <= inject_Z (Zpos m) * 2 ^ e)%Q.
Proof.
  intros Hc Hs Hx. unfold leb, SFleb.
  rewrite (compare_finite_pos _ _ _ _ Hc Hx), Hs.
  destruct (bounded_inv _ _ Hx) as (He & _).
  rewrite Qle_scaled_l by lia.
  destruct (Z.compare_spec (c * 2 ^ 1074) (scaled m e)); split; intros; try lia; try discriminate; reflexivity.
Qed.

Lemma leb_const_r mc ec (c : Z) m e :
  bounded prec emax mc ec = true -> scaled mc ec = c * 2 ^ 1074 ->
  bounded prec emax m e = true ->
  leb (S754_finite false m e) (S754_finite false mc ec) = true
  <-> (inject_Z (Zpos m) * 2 ^ e <= inject_Z c)%Q.
Proof.
  intros Hc Hs Hx. unfold leb, SFleb.
  rewrite (compare_finite_pos _ _ _ _ Hx Hc), Hs.
  destruct (bounded_inv _ _ Hx) as (He & _).
  rewrite Qle_scaled_r by lia.
  destruct (Z.compare_spec (scaled m e) (c * 2 ^ 1074)); split; intros; try lia; try discriminate; reflexivity.
Qed.

(** C6: under the default structure [validate_premium_feature_fee] answers
    [True] exactly for the floats whose value lies between 5 and 10, and
    both bounds are accepted.  NaN and the infinities have no value and are
    refused. *)
Theorem validate_premium_feature_fee_range (x : float) :
  valid x = true ->
  (validate_premium_feature_fee FeeStructure_default x = true
   <-> exists q, to_Q x = Some q /\ (5 <= q)%Q /\ (q <= 10)%Q)
  /\ validate_premium_feature_fee FeeStructure_default (dec 500 2) = true
  /\ validate_premium_feature_fee FeeStructure_default (dec 1000 2) = true.
Proof.
  intros Hv. split; [|split; vm_compute; reflexivity].
  unfold validate_premium_feature_fee. cbn [FeeStructure_default premium_feature_fee_min_usd premium_feature_fee_max_usd].
  rewrite five_repr, ten_repr, andb_true_iff.
  destruct x as [s|s| |s m e].
  - split; [intros [H _]; destruct s; discriminate H|].
    intros (q & [= <-] & H5 & _). exfalso. revert H5. apply Qlt_not_le. reflexivity.
  - split; [intros [H1 H2]; destruct s; discriminate|]. intros (q & [=] & _).
  - split; [intros [H _]; discriminate H|]. intros (q & [=] & _).
  - destruct s.
    + split; [intros [H _]; discriminate H|].
      intros (q & [= <-] & H5 & _). exfalso. revert H5. apply Qlt_not_le.
      eapply Qlt_trans; [apply to_Q_neg|reflexivity].
    + unfold valid in Hv. cbn [valid_binary] in Hv.
      rewrite (leb_const_l _ _ 5 m e), (leb_const_r _ _ 10 m e); try reflexivity; try exact Hv.
      cbn [to_Q cond_Zopp]. split.
      * intros [H5 H10]. eexists. split; [reflexivity|]. split; assumption.
      * intros (q & [= <-] & H5 & H10). split; assumption.
Qed.

Lemma validate_premium_feature_fee_range_witness :
  valid (dec 750 2) = true
  /\ (validate_premium_feature_fee FeeStructure_default (dec 750 2) = true
      <-> exists q, to_Q (dec 750 2) = Some q /\ (5 <= q)%Q /\ (q <= 10)%Q)
  /\ validate_premium_feature_fee FeeStructure_default (dec 500 2) = true
  /\ validate_premium_feature_fee FeeStructure_default (dec 1000 2) = true.
Proof.
  split; [vm_compute; reflexivity|].
  apply (validate_premium_feature_fee_range (dec 750 2)).
  vm_compute; reflexivity.
Defined.

Lemma truediv_nonzero a x :
  is_zero x = false -> truediv a x = Ok (SFdiv prec emax a x).
Proof. unfold truediv. intros ->. reflexivity. Qed.

Lemma truediv_zero a x :
  is_zero x = true -> truediv a x = Raise ZeroDivisionError.
Proof. unfold truediv. intros ->. reflexivity. Qed.

Lemma hundred_nonzero : is_zero (of_Z 100) = false.
Proof. reflexivity. Qed.

Lemma deal_fee_locals_zero fs x :
  is_zero x = true -> deal_fee_locals fs x = Raise ZeroDivisionError.
Proof.
  intros Hz. unfold deal_fee_locals, effective_percent_of.
  rewrite (truediv_nonzero _ _ hundred_nonzero), (truediv_zero _ _ Hz).
  reflexivity.
Qed.

Lemma deal_fee_locals_nonzero fs x :
  is_zero x = false -> exists t, deal_fee_locals fs x = Ok t.
Proof.
  intros Hz. unfold deal_fee_locals, effective_percent_of.
  rewrite (truediv_nonzero _ _ hundred_nonzero), (truediv_nonzero _ _ Hz).
  destruct (gtb _ _); [rewrite (truediv_nonzero _ _ Hz)|]; eexists; reflexivity.
Qed.

Lemma nonpositive_cases x :
  leb x (of_Z 0) = true -> is_zero x = true \/ (is_zero x = false /\ ltb x (of_Z 0) = true).
Proof.
  change (of_Z 0) with (S754_zero false).
  destruct x as [s|[|]| |[|] m e]; cbn; intros H; try discriminate H; auto.
Qed.

(** C1, as the code has it: the calculator does not validate its argument.
    For a deal value [<= 0] it either divides by zero (the value is [0.0] or
    [-0.0]) and fails with [ZeroDivisionError], or, when the value is
    negative, returns a breakdown for it. *)
Theorem calculate_deal_fees_nonpositive (fs : FeeStructure) (x : float) :
  leb x (of_Z 0) = true ->
  (is_zero x = true /\ calculate_deal_fees fs x = Raise ZeroDivisionError)
  \/ (ltb x (of_Z 0) = true
      /\ exists b, calculate_deal_fees fs x = Ok b /\ deal_value_usd b = x).
Proof.
  intros [Hz|[Hz Hneg]]%nonpositive_cases; [left|right]; split; try assumption.
  - unfold calculate_deal_fees. rewrite (deal_fee_locals_zero _ _ Hz). reflexivity.
  - unfold calculate_deal_fees.
    destruct (deal_fee_locals_nonzero fs x Hz) as [[[t1 t2] t3] ->].
    eexists. split; reflexivity.
Qed.

Lemma calculate_deal_fees_nonpositive_witness :
  leb (of_Z (-5)) (of_Z 0) = true
  /\ ((is_zero (of_Z (-5)) = true
       /\ calculate_deal_fees FeeStructure_default (of_Z (-5)) = Raise ZeroDivisionError)
      \/ (ltb (of_Z (-5)) (of_Z 0) = true
          /\ exists b, calculate_deal_fees FeeStructure_default (of_Z (-5)) = Ok b
                       /\ deal_value_usd b = of_Z (-5))).
Proof.
  split; [reflexivity|].
  apply (calculate_deal_fees_nonpositive FeeStructure_default (of_Z (-5))).
  reflexivity.
Defined.

(** C1 as stated fails: the deal values [-5.0] and [0.0] are [<= 0], yet the
    first is answered with a breakdown and the second with a division by
    zero; neither is rejected as invalid input. *)
Lemma calculate_deal_fees_accepts_nonpositive :
  leb (of_Z (-5)) (of_Z 0) = true
  /\ leb (of_Z 0) (of_Z 0) = true
  /\ (exists b, calculate_deal_fees FeeStructure_default (of_Z (-5)) = Ok b
                /\ transaction_fee_usd b = dec (-20) 2
                /\ total_effective_fee_usd b = dec 2730 2
                /\ effective_fee_percentage b = dec (-5460) 1)
  /\ calculate_deal_fees FeeStructure_default (of_Z 0) = Raise ZeroDivisionError
  /\ ~ rejects_input (calculate_deal_fees FeeStructure_default (of_Z (-5)))
  /\ ~ rejects_input (calculate_deal_fees FeeStructure_default (of_Z 0)).
Proof.
  split; [reflexivity|]. split; [reflexivity|].
  destruct (calculate_deal_fees _ (of_Z (-5))) as [b|e] eqn:E5;
    vm_compute in E5; [|discriminate E5].
  destruct (calculate_deal_fees _ (of_Z 0)) as [b0|e0] eqn:E0;
    vm_compute in E0; [discriminate E0|].
  injection E5 as <-. injection E0 as <-.
  split; [eexists; split; [reflexivity|]; repeat split; vm_compute; reflexivity|].
  split; [reflexivity|]. split; intros H; exact H.
Qed.

(** X1.  Whole-dollar deals under 2000: the calculator ends over the cap
    exactly for the deal values up to 343. *)
Lemma whole_dollar_deals_over_cap (d : Z) :
  1 <= d < 2000 -> over_cap d = (d <=? 343).
Proof.
  intros Hd.
  assert (H : forallb (fun d => Bool.eqb (over_cap d) (d <=? 343)) (zrange 1 1999)
              = true) by (vm_compute; reflexivity).
  rewrite forallb_forall in H. apply Bool.eqb_prop, H.
  unfold zrange. apply in_map_iff. exists (Z.to_nat (d - 1)). split; [lia|].
  apply in_seq. lia.
Qed.

(** C2 at the deal value [100.0], which is below 2000: the effective
    percentage still exceeds the configured cap of 11 after the tier
    adjustment, both before and after rounding. *)
Theorem small_deal_breaches_cap :
  ltb (of_Z 100) (of_Z 2000) = true
  /\ (exists tf tot eff,
        deal_fee_locals FeeStructure_default (of_Z 100) = Ok (tf, tot, eff)
        /\ gtb eff (max_effective_fee_percent FeeStructure_default) = true)
  /\ (exists b,
        calculate_deal_fees FeeStructure_default (of_Z 100) = Ok b
        /\ effective_fee_percentage b = dec 305 1
        /\ gtb (effective_fee_percentage b)
               (max_effective_fee_percent FeeStructure_default) = true).
Proof.
  split; [reflexivity|]. split.
  - destruct (deal_fee_locals _ _) as [[[tf tot] eff]|e] eqn:E;
      vm_compute in E; [|discriminate E].
    injection E as <- <- <-. do 3 eexists. split; reflexivity.
  - destruct (calculate_deal_fees _ _) as [b|e] eqn:E;
      vm_compute in E; [|discriminate E].
    injection E as <-. eexists. split; [reflexivity|].
    split; vm_compute; reflexivity.
Qed.

(** C3: [calculate_deal_fees(100)] under the default structure.  Before the
    adjustment the transaction fee is 4.00 and the effective percentage 31.5
    is over the cap; the deal is under 1000, so the fee becomes
    [min(4.00, 100 * 0.03) = 3.00]; the result carries transaction fee 3.00,
    total 30.50 and effective percentage 30.5. *)
Theorem calculate_deal_fees_100 :
  mul (of_Z 100) (dec 4 2) = dec 400 2
  /\ effective_percent_of (dec 3150 2) (of_Z 100) = Ok (dec 315 1)
  /\ gtb (dec 315 1) (max_effective_fee_percent FeeStructure_default) = true
  /\ ltb (of_Z 100) (of_Z 1000) = true
  /\ adjust_transaction_fee (dec 400 2) (of_Z 100) = dec 300 2
  /\ deal_fee_locals FeeStructure_default (of_Z 100)
     = Ok (dec 300 2, dec 3050 2, dec 305 1)
  /\ exists b,
       calculate_deal_fees FeeStructure_default (of_Z 100) = Ok b
       /\ transaction_fee_usd b = dec 300 2
       /\ total_effective_fee_usd b = dec 3050 2
       /\ effective_fee_percentage b = dec 305 1.
Proof.
  repeat (split; [vm_compute; reflexivity|]).
  destruct (calculate_deal_fees _ _) as [b|e] eqn:E;
    vm_compute in E; [|discriminate E].
  injection E as <-. eexists. split; [reflexivity|].
  repeat split; vm_compute; reflexivity.
Qed.

End FeeServiceProps.

(** ** The ledger store *)

Module LedgerProps.
Import Ledger.

#[local] Instance sort_le_total ix : Total (sort_le ix).
Proof. intros i j. unfold sort_le. apply total, _. Qed.

(** *** Lists and dictionaries *)

Lemma Sorted_weaken {A} (R R' : relation A) (l : list A) :
  (∀ x y, x ∈ l → y ∈ l → R x y → R' x y) → Sorted R l → Sorted R' l.
Proof.
  intros HR Hs. induction Hs as [|x l Hs IH Hd]; [constructor|].
  constructor.
  - apply IH. intros y z Hy Hz. apply HR; rewrite elem_of_cons; by right.
  - destruct Hd as [|y l' Hxy]; constructor.
    apply HR; [| |done]; rewrite ?elem_of_cons; auto.
Qed.

Lemma ltb_not_leb (s1 s2 : string) :
  String.ltb s1 s2 = true → String.leb s2 s1 = false.
Proof.
  unfold String.ltb, String.leb. rewrite (String.compare_antisym s2 s1).
  by destruct (String.compare s1 s2).
Qed.

Lemma lookup_list_to_map_assoc {V} (l : list (string * V)) (k : string) :
  (list_to_map l : gmap string V) !! k = assoc k l.
Proof.
  induction l as [|[k' v] l IH]; [done|].
  cbn [list_to_map foldr assoc fst snd].
  destruct (String.eqb_spec k' k) as [->|Hne].
  - apply lookup_insert_eq.
  - by rewrite lookup_insert_ne.
Qed.

Lemma str_attr_literal (l : list (string * Value)) (k : string) :
  str_attr k (list_to_map l) =
  match assoc k l with Some (VStr s) => Some s | _ => None end.
Proof. unfold str_attr. by rewrite lookup_list_to_map_assoc. Qed.

(** Reads every key of a dictionary literal in the goal. *)
Ltac read_keys :=
  rewrite ?str_attr_literal, ?lookup_list_to_map_assoc;
  cbv [assoc String.eqb Ascii.eqb Bool.eqb].


(** *** Queries *)

Lemma elem_of_rows (t : Table) (item : Item) :
  item ∈ rows t ↔ ∃ k, t !! k = Some item.
Proof.
  unfold rows. rewrite list_elem_of_fmap. split.
  - intros ([k i] & -> & Hin). exists k. by apply elem_of_map_to_list.
  - intros [k Hk]. exists (k, item). split; [done|]. by apply elem_of_map_to_list.
Qed.

Lemma elem_of_select (ix : Index) (c : Cond) (fwd : bool) (t : Table) (item : Item) :
  item ∈ select ix c fwd None t
  ↔ in_index ix item = true ∧ eval_cond c item = true ∧ ∃ k, t !! k = Some item.
Proof.
  unfold select.
  assert (∀ l : list Item, item ∈ (if fwd then l else reverse l) ↔ item ∈ l) as ->.
  { intros l. destruct fwd; [done|apply elem_of_reverse]. }
  rewrite merge_sort_Permutation, list_elem_of_filter, elem_of_rows.
  rewrite Is_true_true, andb_true_iff. tauto.
Qed.

Lemma select_sorted (ix : Index) (c : Cond) (t : Table) :
  Sorted (sort_le ix) (select ix c true None t).
Proof. unfold select. apply (Sorted_merge_sort (sort_le ix)). Qed.

Lemma time_indexed_insert (t : Table) k (item : Item) :
  time_indexed t →
  (in_index GSI2 item = true →
   str_attr "GSI2SK" item = str_attr "created_at" item) →
  time_indexed (<[k := item]> t).
Proof.
  intros Ht Hi k' item' Hk' Hin.
  destruct (decide (k = k')) as [->|Hne].
  - rewrite lookup_insert_eq in Hk'. simplify_eq. by apply Hi.
  - rewrite lookup_insert_ne in Hk' by done. by eapply Ht.
Qed.

(** *** Runs of the monad *)

Lemma run_ok_inv {A} (a a' : A) (w w' : World) :
  (Ok a, w) = (Ok a', w') → a = a' ∧ w = w'.
Proof. by intros [= -> ->]. Qed.

Lemma run_bind {A B} (m : M A) (f : A → M B) (w : World) :
  (m ≫= f) w =
  match m w with
  | (Ok a, w') => f a w'
  | (Raise e, w') => (Raise e, w')
  end.
Proof. reflexivity. Qed.

Lemma run_ret {A} (a : A) (w : World) : (mret a : M A) w = (Ok a, w).
Proof. reflexivity. Qed.

Section Runs.
Context (rt : Runtime).

Lemma generate_id_run w :
  generate_id rt w = (Ok (uuid4 rt (uuid_calls w)), tick_uuid w).
Proof. reflexivity. Qed.

Lemma datetime_utcnow_run w :
  datetime_utcnow rt w = (Ok (utcnow rt (clock_reads w)), tick_clock w).
Proof. reflexivity. Qed.

Lemma get_timestamp_run w :
  get_timestamp rt w = (Ok (isoformat rt (utcnow rt (clock_reads w))), tick_clock w).
Proof. reflexivity. Qed.

Lemma put_item_run (item : Item) pk sk w :
  str_attr "PK" item = Some pk → str_attr "SK" item = Some sk →
  put_item rt item w =
  match backend_fault rt (backend_calls w) with
  | Some e => (Raise e, tick_backend w)
  | None => (Ok tt, store pk sk item (tick_backend w))
  end.
Proof.
  intros Hpk Hsk. unfold put_item. rewrite !run_bind. unfold backend_call.
  destruct (backend_fault rt (backend_calls w)); [done|].
  by rewrite Hpk, Hsk.
Qed.

Lemma get_item_run pk sk w :
  get_item rt pk sk w =
  match backend_fault rt (backend_calls w) with
  | Some e => (Raise e, tick_backend w)
  | None => (Ok (table w !! (pk, sk)), tick_backend w)
  end.
Proof.
  unfold get_item. rewrite run_bind. unfold backend_call.
  by destruct (backend_fault rt (backend_calls w)).
Qed.

Lemma query_run ix c fwd limit w :
  query rt ix c fwd limit w =
  match backend_fault rt (backend_calls w) with
  | Some e => (Raise e, tick_backend w)
  | None => (Ok (select ix c fwd limit (table w)), tick_backend w)
  end.
Proof.
  unfold query. rewrite run_bind. unfold backend_call.
  by destruct (backend_fault rt (backend_calls w)).
Qed.

Lemma scan_run c w :
  scan rt c w =
  match backend_fault rt (backend_calls w) with
  | Some e => (Raise e, tick_backend w)
  | None => (Ok (filter (λ i, eval_cond c i) (rows (table w))), tick_backend w)
  end.
Proof.
  unfold scan. rewrite run_bind. unfold backend_call.
  by destruct (backend_fault rt (backend_calls w)).
Qed.

End Runs.

(** Runs a writer up to the request it sends: the identifiers are drawn, the
    dictionary is built, and [put_item] answers. *)
Ltac run_writer :=
  repeat (progress
    (rewrite ?run_bind, ?generate_id_run, ?get_timestamp_run,
       ?datetime_utcnow_run;
     cbn beta iota zeta));
  erewrite put_item_run by (read_keys; reflexivity);
  cbn [tick_uuid tick_clock tick_backend table uuid_calls clock_reads backend_calls].

Ltac run_writer_in H :=
  repeat (progress
    (rewrite ?run_bind, ?generate_id_run, ?get_timestamp_run,
       ?datetime_utcnow_run in H;
     cbn beta iota zeta in H));
  erewrite put_item_run in H by (read_keys; reflexivity);
  cbn [tick_uuid tick_clock tick_backend table uuid_calls clock_reads backend_calls] in H.

(** From a successful write: the request went through, the item is the
    dictionary the method built, and the world holds it under its key. *)
Ltac writer_inv H :=
  unfold record_fee, create_user, create_contract, log_transaction,
    record_deployment_fee, record_subscription_fee, record_premium_fee in H;
  run_writer_in H;
  match type of H with
  | context [backend_fault ?r ?n] =>
      let Hf := fresh "Hfault" in
      destruct (backend_fault r n) eqn:Hf; [discriminate H|]
  end;
  rewrite run_ret in H;
  apply run_ok_inv in H as [<- <-].

Section Statements.
Context (rt : Runtime).

(** What a successful [record_fee] leaves behind. *)
Lemma record_fee_inv kind u ut d amt w (item : Item) w' :
  record_fee rt kind u ut d amt w = (Ok item, w') →
  backend_fault rt (backend_calls w) = None
  ∧ (∃ k, table w' = <[k := item]> (table w))
  ∧ str_attr "GSI2PK" item = Some (category_token kind)
  ∧ str_attr "GSI2SK" item = Some (isoformat rt (utcnow rt (clock_reads w)))
  ∧ str_attr "created_at" item = Some (isoformat rt (utcnow rt (clock_reads w)))
  ∧ item !! "fee_usd" = Some (VDecimal amt).
Proof.
  intros H. destruct kind; writer_inv H;
    (split; [done|]); (split; [by eexists|]);
    repeat split; read_keys; reflexivity.
Qed.

(** C9.  A fee recorded with creation time [created_at] is returned by the
    range query on its kind when [t0 <= created_at <= t1] and is not returned
    when [t1 < created_at]; the rows come back in ascending order of the
    sort key of the index, which is the creation time of every row the
    service wrote. *)
Theorem record_fee_listed_in_range kind u ut d amt w (item : Item) w' t0 t1 l w'' :
  record_fee rt kind u ut d amt w = (Ok item, w') →
  list_fees_in_range rt kind t0 t1 w' = (Ok l, w'') →
  str_attr "created_at" item = Some (created_at_of item)
  ∧ (String.leb t0 (created_at_of item) = true →
     String.leb (created_at_of item) t1 = true → item ∈ l)
  ∧ (String.ltb t1 (created_at_of item) = true → item ∉ l)
  ∧ Sorted (sort_le GSI2) l
  ∧ (time_indexed (table w) → Sorted created_le l).
Proof.
  intros (Hf & [k Ht] & Hpk & Hsk & Hca & _)%record_fee_inv Hq.
  unfold list_fees_in_range, get_transactions_by_date_range in Hq.
  rewrite query_run in Hq.
  destruct (backend_fault rt (backend_calls w')); [discriminate Hq|].
  apply run_ok_inv in Hq as [<- _].
  unfold created_at_of. rewrite Hca. cbn beta iota.
  split; [done|].
  assert (Hix : in_index GSI2 item = true).
  { unfold in_index. cbn [partition_attr sort_attr]. by rewrite Hpk, Hsk. }
  split; [|split; [|split]].
  - intros H0 H1. apply elem_of_select. split; [done|]. split.
    + cbn [eval_cond]. rewrite Hpk, Hsk, H0, H1, String.eqb_refl. done.
    + exists k. rewrite Ht. apply lookup_insert_eq.
  - intros Hlt (_ & Hc & _)%elem_of_select. cbn [eval_cond] in Hc.
    rewrite Hpk, Hsk, (ltb_not_leb _ _ Hlt), andb_false_r, andb_false_r in Hc.
    discriminate Hc.
  - apply select_sorted.
  - intros Hti. eapply Sorted_weaken; [|apply select_sorted].
    assert (Hti' : time_indexed (table w')).
    { rewrite Ht. apply time_indexed_insert; [done|]. intros _. by rewrite Hsk, Hca. }
    assert (Hkey : ∀ x : Item,
      x ∈ select GSI2 (CondAnd (AttrEq "GSI2PK" (category_token kind))
                               (AttrBetween "GSI2SK" t0 t1)) true None (table w') →
      sort_key GSI2 x = created_at_of x).
    { intros x (Hx & _ & [kx Hkx])%elem_of_select.
      unfold sort_key, created_at_of. cbn [sort_attr].
      by rewrite (Hti' kx x Hkx Hx). }
    intros x y Hx Hy. unfold sort_le, created_le.
    by rewrite (Hkey x Hx), (Hkey y Hy).
Qed.



(** C7, as the code has it: how each kind of fee record refers to the
    paying user.  A deployment fee lives in a partition of its own,
    [FEE#<id>], and is filed under the user in the first index; a
    subscription lives in the partition of the user; a premium fee lives in
    the partition of the user and is filed under the user in the first
    index as well. *)
Theorem record_fee_user_reference kind u ut d amt w (item : Item) w' :
  record_fee rt kind u ut d amt w = (Ok item, w') →
  match kind with
  | Deployment =>
      str_attr "PK" item = Some ("FEE#" +:+ uuid4 rt (uuid_calls w))
      ∧ str_attr "SK" item = Some "DEPLOYMENT"
      ∧ user_indexed u item
  | Subscription =>
      keyed_under_user u item
      ∧ str_attr "SK" item = Some ("SUB#" +:+ uuid4 rt (uuid_calls w))
  | Premium =>
      keyed_under_user u item
      ∧ str_attr "SK" item = Some ("PREMIUM#" +:+ uuid4 rt (uuid_calls w))
      ∧ user_indexed u item
  end.
Proof.
  intros H. destruct kind; writer_inv H;
    unfold keyed_under_user, user_indexed; read_keys;
    repeat split; by eexists.
Qed.



(** *** Failures of the store *)

(** A handler that returns a value makes the whole statement return. *)
Lemma try_except_total {A} (body : M A) (a0 : A) w :
  ∃ a w', try_except body (λ _, mret a0) w = (Ok a, w').
Proof.
  unfold try_except. destruct (body w) as [[a|e] w']; by eexists _, _.
Qed.

(** [get_fee_analytics] never raises: whatever goes wrong inside the [try]
    block, the [except] clause answers with the initial dictionary. *)
Lemma get_fee_analytics_total w :
  ∃ a w', get_fee_analytics rt w = (Ok a, w').
Proof. apply try_except_total. Qed.

Lemma get_fee_analytics_offline w e :
  backend_fault rt (backend_calls w) = Some e →
  get_fee_analytics rt w = (Ok empty_analytics, tick_backend w).
Proof.
  intros Hf. unfold get_fee_analytics, try_except.
  rewrite run_bind, scan_run, Hf. reflexivity.
Qed.

(** A method that sends a single request: the request [n] is that one. *)
Ltac one_request w n :=
  let F := fresh "F" in
  destruct (backend_fault rt (backend_calls w)) eqn:F;
  rewrite ?run_ret;
  cbn [fst snd backend_calls tick_backend tick_clock tick_uuid store];
  intros Hn He;
  (assert (n = backend_calls w) as -> by lia); congruence.

(** C8, as the code has it: a failed request to the store is raised to the
    caller by every method except [get_fee_analytics].  If any request the
    method sent failed, the method ended in that exception. *)
Theorem store_failure_propagates op w n e :
  op ≠ OpGetFeeAnalytics →
  (backend_calls w ≤ n < backend_calls (run_op rt op w).2)%nat →
  backend_fault rt n = Some e →
  (run_op rt op w).1 = Raise e.
Proof.
  intros Hop. destruct op; try done; clear Hop;
    unfold run_op, discard, get_contract_for_compliance, create_user,
      get_user, create_contract, get_contract, get_user_contracts,
      log_transaction, get_contract_transactions, get_wallet_transactions,
      record_deployment_fee, record_subscription_fee, record_premium_fee,
      get_transactions_by_date_range.
  1, 3, 6, 9, 10, 11: run_writer; one_request w n.
  1, 2, 3, 4, 5, 6: rewrite run_bind, ?get_item_run, ?query_run; one_request w n.
  (* get_contract_for_compliance: one request, or two *)
  rewrite !run_bind, get_item_run.
  destruct (backend_fault rt (backend_calls w)) eqn:F1.
  - cbn [fst snd backend_calls tick_backend]. intros Hn He.
    assert (n = backend_calls w) as -> by lia. congruence.
  - destruct (table w !! _) as [c|]; cbn beta iota;
      [destruct (bool_decide (c = ∅))|];
      repeat (progress (rewrite ?run_bind, ?run_ret, ?query_run; cbn beta iota));
      cbn [fst snd backend_calls tick_backend table].
    + intros Hn He. assert (n = backend_calls w) as -> by lia. congruence.
    + destruct (backend_fault rt (S (backend_calls w))) eqn:F2;
        rewrite ?run_ret; cbn [fst snd backend_calls tick_backend]; intros Hn He;
        (assert (n = backend_calls w ∨ n = S (backend_calls w)) as [->| ->] by lia);
        congruence.
    + intros Hn He. assert (n = backend_calls w) as -> by lia. congruence.
Qed.


End Statements.

(** *** The creation-time index is maintained by every method *)

Section Invariant.
Context (rt : Runtime).

Lemma get_fee_analytics_table w :
  table (get_fee_analytics rt w).2 = table w.
Proof.
  unfold get_fee_analytics, try_except.
  rewrite run_bind, scan_run.
  destruct (backend_fault rt (backend_calls w)); [reflexivity|].
  rewrite run_bind. unfold lift at 1.
  destruct (sum_fees _ _ _) as [[total count]|e]; [|reflexivity].
  cbn beta iota. rewrite run_bind. cbn [fst snd].
  destruct (0 <? count).
  - rewrite run_bind. unfold lift.
    destruct (truediv _ _); reflexivity.
  - reflexivity.
Qed.

(** A method leaves the table alone or stores one item that is filed in the
    second index under its creation time. *)
Lemma run_op_table op w :
  table (run_op rt op w).2 = table w
  ∨ ∃ k (item : Item),
      table (run_op rt op w).2 = <[k := item]> (table w)
      ∧ (in_index GSI2 item = true →
         str_attr "GSI2SK" item = str_attr "created_at" item).
Proof.
  destruct op;
    unfold run_op, discard, get_contract_for_compliance, create_user,
      get_user, create_contract, get_contract, get_user_contracts,
      log_transaction, get_contract_transactions, get_wallet_transactions,
      record_deployment_fee, record_subscription_fee, record_premium_fee,
      get_transactions_by_date_range.
  1, 3, 6, 9, 10, 11:
    run_writer; destruct (backend_fault rt (backend_calls w));
    [by left|right; rewrite run_ret; eexists _, _; split; [reflexivity|]];
    unfold in_index; read_keys; done.
  1, 2, 3, 4, 5, 7:
    left; rewrite run_bind, ?get_item_run, ?query_run;
    by destruct (backend_fault rt (backend_calls w)).
  - left. rewrite run_bind.
    pose proof (get_fee_analytics_table w) as Ht.
    destruct (get_fee_analytics rt w) as [[a|e] w1]; exact Ht.
  - left. rewrite !run_bind, get_item_run.
    destruct (backend_fault rt (backend_calls w)); [done|].
    destruct (table w !! _) as [c|]; cbn beta iota;
      [destruct (bool_decide (c = ∅))|];
      repeat (progress (rewrite ?run_bind, ?run_ret, ?query_run; cbn beta iota));
      try done.
    cbn [backend_calls tick_backend table].
    by destruct (backend_fault rt (S (backend_calls w))).
Qed.

Lemma run_op_time_indexed op w :
  time_indexed (table w) → time_indexed (table (run_op rt op w).2).
Proof.
  intros Hti. destruct (run_op_table op w) as [->|(k & item & -> & Hi)];
    [done|by apply time_indexed_insert].
Qed.

Lemma reachable_time_indexed w : reachable rt w → time_indexed (table w).
Proof.
  induction 1 as [|op w _ IH]; [|by apply run_op_time_indexed].
  intros k item Hk. cbn [empty_world table] in Hk. by rewrite lookup_empty in Hk.
Qed.

End Invariant.

(** *** The statements on the sample runs *)

Lemma sample_contract_run_ok :
  sample_contract_run = (Ok (item_of sample_contract_run), sample_contract_run.2).
Proof.
  unfold item_of, sample_contract_run, create_contract. run_writer.
  change (backend_fault sample_runtime _) with (@None Exn). reflexivity.
Qed.

Lemma sample_fee_run_ok kind amt :
  sample_fee_run kind amt = (Ok (item_of (sample_fee_run kind amt)), (sample_fee_run kind amt).2).
Proof.
  unfold item_of.
  destruct kind; unfold sample_fee_run, record_fee, record_deployment_fee,
    record_subscription_fee, record_premium_fee; run_writer;
    change (backend_fault sample_runtime _) with (@None Exn); reflexivity.
Qed.




(** C7 as stated fails: the deployment fee of user [u1] is stored in the
    partition [FEE#id-000000], not in the partition of the user, and the
    subscription of [u1] carries no key of the first index. *)
Lemma record_fee_not_keyed_and_indexed :
  (str_attr "PK" (item_of (sample_fee_run Deployment (dec 1250 2)))
   = Some "FEE#id-000000"
   ∧ ¬ keyed_under_user "u1" (item_of (sample_fee_run Deployment (dec 1250 2))))
  ∧ (str_attr "GSI1PK" (item_of (sample_fee_run Subscription (dec 1500 2))) = None
     ∧ ¬ user_indexed "u1" (item_of (sample_fee_run Subscription (dec 1500 2)))).
Proof.
  assert (H1 : str_attr "PK" (item_of (sample_fee_run Deployment (dec 1250 2)))
               = Some "FEE#id-000000") by (vm_compute; reflexivity).
  assert (H2 : str_attr "GSI1PK" (item_of (sample_fee_run Subscription (dec 1500 2)))
               = None) by (vm_compute; reflexivity).
  split; (split; [assumption|]).
  - unfold keyed_under_user. rewrite H1. discriminate.
  - unfold user_indexed. rewrite H2. intros [? _]. discriminate.
Qed.

Lemma record_fee_user_reference_witness :
  str_attr "PK" (item_of (sample_fee_run Deployment (dec 1250 2)))
  = Some "FEE#id-000000"
  ∧ str_attr "SK" (item_of (sample_fee_run Deployment (dec 1250 2)))
    = Some "DEPLOYMENT"
  ∧ user_indexed "u1" (item_of (sample_fee_run Deployment (dec 1250 2))).
Proof.
  exact (record_fee_user_reference sample_runtime Deployment "u1" "athlete"
           "sponsorship" (dec 1250 2) empty_world _ _
           (sample_fee_run_ok Deployment (dec 1250 2))).
Defined.

(** C8 as stated fails: with the store unreachable, [get_fee_analytics]
    returns the dictionary it started from instead of raising. *)
Lemma get_fee_analytics_swallows_failure :
  backend_fault offline_runtime (backend_calls empty_world)
  = Some (BackendError "EndpointConnectionError")
  ∧ get_fee_analytics offline_runtime empty_world
    = (Ok empty_analytics, tick_backend empty_world)
  ∧ (run_op offline_runtime OpGetFeeAnalytics empty_world).1 = Ok tt.
Proof.
  split; [reflexivity|].
  assert (H : get_fee_analytics offline_runtime empty_world
              = (Ok empty_analytics, tick_backend empty_world))
    by (by apply get_fee_analytics_offline with (e := BackendError "EndpointConnectionError")).
  split; [exact H|].
  unfold run_op, discard. by rewrite run_bind, H.
Qed.

Lemma store_failure_propagates_witness :
  (backend_calls empty_world
   ≤ 0 < backend_calls (run_op offline_runtime (OpGetContract "id-000000")
                          empty_world).2)%nat
  ∧ (run_op offline_runtime (OpGetContract "id-000000") empty_world).1
    = Raise (BackendError "EndpointConnectionError").
Proof.
  assert (Hn : (backend_calls empty_world
   ≤ 0 < backend_calls (run_op offline_runtime (OpGetContract "id-000000")
                          empty_world).2)%nat) by (vm_compute; lia).
  split; [exact Hn|].
  apply (store_failure_propagates offline_runtime (OpGetContract "id-000000")
           empty_world 0 (BackendError "EndpointConnectionError")).
  - discriminate.
  - exact Hn.
  - reflexivity.
Defined.

Lemma record_fee_listed_in_range_witness :
  list_fees_in_range sample_runtime Deployment "2024-01-01" "2024-12-31"
    (sample_fee_run Deployment (dec 1250 2)).2
  = (Ok [item_of (sample_fee_run Deployment (dec 1250 2))],
     tick_backend (sample_fee_run Deployment (dec 1250 2)).2)
  ∧ str_attr "created_at" (item_of (sample_fee_run Deployment (dec 1250 2)))
    = Some (created_at_of (item_of (sample_fee_run Deployment (dec 1250 2))))
  ∧ (String.leb "2024-01-01"
       (created_at_of (item_of (sample_fee_run Deployment (dec 1250 2)))) = true →
     String.leb (created_at_of (item_of (sample_fee_run Deployment (dec 1250 2))))
       "2024-12-31" = true →
     item_of (sample_fee_run Deployment (dec 1250 2))
     ∈ [item_of (sample_fee_run Deployment (dec 1250 2))])
  ∧ (String.ltb "2024-12-31"
       (created_at_of (item_of (sample_fee_run Deployment (dec 1250 2)))) = true →
     item_of (sample_fee_run Deployment (dec 1250 2))
     ∉ [item_of (sample_fee_run Deployment (dec 1250 2))])
  ∧ Sorted (sort_le GSI2) [item_of (sample_fee_run Deployment (dec 1250 2))]
  ∧ (time_indexed (table empty_world) →
     Sorted created_le [item_of (sample_fee_run Deployment (dec 1250 2))]).
Proof.
  assert (Hq : list_fees_in_range sample_runtime Deployment "2024-01-01" "2024-12-31"
                 (sample_fee_run Deployment (dec 1250 2)).2
               = (Ok [item_of (sample_fee_run Deployment (dec 1250 2))],
                  tick_backend (sample_fee_run Deployment (dec 1250 2)).2))
    by (vm_compute; reflexivity).
  split; [exact Hq|].
  exact (record_fee_listed_in_range sample_runtime Deployment "u1" "athlete"
           "sponsorship" (dec 1250 2) empty_world _ _ "2024-01-01" "2024-12-31"
           _ _ (sample_fee_run_ok Deployment (dec 1250 2)) Hq).
Defined.


End LedgerProps.

(** ** Integers as binary64 values *)

Module Float64More.

Lemma iter_pos_nat {A} (f : A → A) (p : positive) (x : A) :
  @SpecFloat.iter_pos A f p x = Nat.iter (Pos.to_nat p) f x.
Proof.
  revert x. induction p as [p IH|p IH|]; intros x; cbn [SpecFloat.iter_pos].
  - rewrite !IH, Pos2Nat.inj_xI. 
    replace (S (2 * Pos.to_nat p))%nat with (Pos.to_nat p + (Pos.to_nat p + 1))%nat by lia.
    rewrite !Nat.iter_add. reflexivity.
  - rewrite !IH, Pos2Nat.inj_xO.
    replace (2 * Pos.to_nat p)%nat with (Pos.to_nat p + Pos.to_nat p)%nat by lia.
    rewrite Nat.iter_add. reflexivity.
  - reflexivity.
Qed.

Lemma shr_1_m (r : shr_record) : 0 <= shr_m r → shr_m (shr_1 r) = Z.div2 (shr_m r).
Proof.
  destruct r as [[|[p|p|]|p] r s]; cbn; intros H; try reflexivity; lia.
Qed.

Lemma shr_iter_m (n : nat) (r : shr_record) :
  0 <= shr_m r → shr_m (Nat.iter n shr_1 r) = shr_m r / 2 ^ Z.of_nat n.
Proof.
  intros Hr. induction n as [|n IH].
  - cbn. by rewrite Z.div_1_r.
  - rewrite Nat.iter_succ, shr_1_m, IH.
    + rewrite Z.div2_div, Z.div_div, Nat2Z.inj_succ, Z.pow_succ_r by lia.
      f_equal. lia.
    + rewrite IH. apply Z.div_pos; lia.
Qed.

Lemma digits2_pos_lower (q : positive) :
  2 ^ (Zpos (digits2_pos q) - 1) <= Zpos q.
Proof.
  induction q as [q IH|q IH|]; cbn [digits2_pos]; [| |done].
  - rewrite Pos2Z.inj_succ.
    replace (Z.succ (Zpos (digits2_pos q)) - 1) with (Z.succ (Zpos (digits2_pos q) - 1)) by lia.
    rewrite Z.pow_succ_r by lia. lia.
  - rewrite Pos2Z.inj_succ.
    replace (Z.succ (Zpos (digits2_pos q)) - 1) with (Z.succ (Zpos (digits2_pos q) - 1)) by lia.
    rewrite Z.pow_succ_r by lia. lia.
Qed.

(** A positive mantissa stays positive through [shr_fexp] above the
    smallest exponent: the shift leaves at least one of its digits. *)
Lemma shr_fexp_pos (q : positive) (e : Z) (l : location) :
  3 - emax - prec <= e →
  0 < shr_m (shr_fexp prec emax (Zpos q) e l).1
  ∧ e <= (shr_fexp prec emax (Zpos q) e l).2.
Proof.
  intros He. unfold shr_fexp, shr, fexp, emin. cbn [Zdigits2].
  set (D := Zpos (digits2_pos q)).
  assert (Hm : shr_m (shr_record_of_loc (Zpos q) l) = Zpos q).
  { by destruct l as [|[]]. }
  destruct (Z.max (D + e - prec) (3 - emax - prec) - e) as [|n|n] eqn:Hn;
    cbn [fst snd]; rewrite ?Hm; try (split; lia).
  rewrite iter_pos_nat, shr_iter_m, Hm by (rewrite Hm; lia).
  rewrite positive_nat_Z. split; [|lia].
  assert (Hn' : Zpos n <= D - 1) by (unfold prec, emax in *; lia).
  apply Z.div_str_pos. split; [apply Z.pow_pos_nonneg; lia|].
  etrans; [|apply digits2_pos_lower].
  apply Z.pow_le_mono_r; lia.
Qed.

Lemma round_nearest_even_pos (m : Z) (l : location) :
  0 < m → 0 < round_nearest_even m l.
Proof.
  intros Hm. destruct l as [|[]]; cbn; try done; [destruct (Z.even m)|]; lia.
Qed.

Lemma binary_round_aux_nonzero sx (q : positive) (e : Z) (l : location) :
  3 - emax - prec <= e →
  is_zero (binary_round_aux prec emax sx (Zpos q) e l) = false.
Proof.
  intros He. unfold binary_round_aux.
  destruct (shr_fexp_pos q e l He) as [H1 H2].
  destruct (shr_fexp prec emax (Zpos q) e l) as [mrs' e']. cbn [fst snd] in *.
  pose proof (round_nearest_even_pos _ (loc_of_shr_record mrs') H1) as Hr.
  destruct (round_nearest_even _ _) as [|q'|q']; try lia.
  destruct (shr_fexp_pos q' e' loc_Exact ltac:(lia)) as [H3 _].
  destruct (shr_fexp prec emax (Zpos q') e' loc_Exact) as [mrs'' e''].
  cbn [fst] in H3. destruct (shr_m mrs'') as [|m|m]; try lia.
  by destruct (e'' <=? emax - prec).
Qed.

Lemma of_Z_nonzero (n : Z) : n ≠ 0 → is_zero (of_Z n) = false.
Proof.
  assert (H : ∀ sx q, is_zero (binary_round prec emax sx q 0) = false).
  { intros sx q. unfold binary_round, shl_align.
    destruct (fexp prec emax (Zpos (digits2_pos q) + 0) - 0) as [|d|d] eqn:Hd;
      apply binary_round_aux_nonzero; unfold fexp, emin, prec, emax in *; lia. }
  intros Hn. unfold of_Z, binary_normalize. destruct n; [done|apply H..].
Qed.

End Float64More.

(** ** The fee calculator on whole-dollar deals *)

Module FeeServiceMore.
Import FeeService Integration Vocabulary.

Lemma whole_dollar_deals_over_cap_witness :
  1 <= 343 < 2000 ∧ over_cap 343 = true ∧ 1 <= 344 < 2000 ∧ over_cap 344 = false.
Proof.
  split; [lia|]. split.
  - apply (FeeServiceProps.whole_dollar_deals_over_cap 343). lia.
  - split; [lia|]. apply (FeeServiceProps.whole_dollar_deals_over_cap 344). lia.
Defined.

Lemma same_float_eq (x y : float) : same_float x y = true → x = y.
Proof.
  destruct x as [a|a| |a m e], y as [b|b| |b n f]; cbn; try discriminate;
    try done.
  - by intros ->%Bool.eqb_prop.
  - by intros ->%Bool.eqb_prop.
  - intros [[->%Bool.eqb_prop ->%Pos.eqb_eq]%andb_prop ->%Z.eqb_eq]%andb_prop.
    done.
Qed.

(** X2.  Whole-dollar deals under 2000 on the default structure: the
    transaction fee the calculator ends with, before rounding, is 3% of the
    deal value for the deals up to 392 and the full 4% (the product by
    [0.04 = 4.0 / 100]) from 393 on.  The 3.5% tier for deals between 1000
    and 2000 is never applied: those deals are under the cap at 4%. *)
Theorem whole_dollar_discount (d : Z) :
  1 <= d < 2000 →
  ∃ total effective,
    deal_fee_locals FeeStructure_default (of_Z d)
    = Ok (mul (of_Z d) (dec (if d <=? 392 then 3 else 4) 2), total, effective).
Proof.
  intros Hd.
  assert (H : forallb (λ d, charges_percent d (if d <=? 392 then 3 else 4))
                (zrange 1 1999) = true) by (vm_compute; reflexivity).
  rewrite forallb_forall in H.
  assert (Hin : In d (zrange 1 1999)).
  { unfold zrange. apply in_map_iff. exists (Z.to_nat (d - 1)). split; [lia|].
    apply in_seq. lia. }
  specialize (H d Hin). unfold charges_percent in H.
  destruct (deal_fee_locals _ _) as [[[tf total] effective]|e]; [|done].
  apply same_float_eq in H as ->. by eexists _, _.
Qed.

Lemma whole_dollar_discount_witness :
  1 <= 1500 < 2000
  ∧ ∃ total effective,
      deal_fee_locals FeeStructure_default (of_Z 1500)
      = Ok (mul (of_Z 1500) (dec 4 2), total, effective).
Proof.
  split; [lia|]. apply (whole_dollar_discount 1500). lia.
Defined.

Lemma default_rate :
  truediv (transaction_fee_percent FeeStructure_default) (of_Z 100)
  = Ok (dec 4 2).
Proof. vm_compute. reflexivity. Qed.

(** X3.  The fee computation written out in
    [create_sponsorship_opportunity] and the calculator on the default
    structure end with the same transaction fee, total fee and effective
    percentage (before rounding) for every deal value whose discounted fees,
    3% and 3.5% of the deal, are below the full fee of 4%; both raise
    [ZeroDivisionError] on a zero deal value.  The calculator takes the
    minimum of the full and the discounted fee, the integration code takes
    the discounted fee as it is. *)
Theorem sponsorship_fees_agree (d : float) :
  ltb (mul d (dec 3 2)) (mul d (dec 4 2)) = true →
  ltb (mul d (dec 35 3)) (mul d (dec 4 2)) = true →
  sponsorship_fee_locals d = deal_fee_locals FeeStructure_default d.
Proof.
  intros H1 H2. unfold sponsorship_fee_locals, deal_fee_locals.
  rewrite default_rate.
  unfold effective_percent_of, adjust_transaction_fee, py_min.
  cbn [deployment_fee_usd subscription_fee_monthly_usd max_effective_fee_percent
       FeeStructure_default].
  change (dec 0 2) with pos_zero.
  destruct (truediv _ d) as [q|e] eqn:Hq; [|reflexivity].
  cbn zeta. rewrite H1, H2.
  destruct (gtb (mul q (of_Z 100)) (dec 110 1)).
  - destruct (ltb d (of_Z 1000)); [|destruct (ltb d (of_Z 2000))];
      match goal with
      | |- context [truediv ?x d] => by destruct (truediv x d)
      end.
  - rewrite Hq. reflexivity.
Qed.

Lemma sponsorship_fees_agree_witness :
  ltb (mul (of_Z 100) (dec 3 2)) (mul (of_Z 100) (dec 4 2)) = true
  ∧ ltb (mul (of_Z 100) (dec 35 3)) (mul (of_Z 100) (dec 4 2)) = true
  ∧ sponsorship_fee_locals (of_Z 100)
    = deal_fee_locals FeeStructure_default (of_Z 100).
Proof.
  assert (H1 : ltb (mul (of_Z 100) (dec 3 2)) (mul (of_Z 100) (dec 4 2)) = true)
    by (vm_compute; reflexivity).
  assert (H2 : ltb (mul (of_Z 100) (dec 35 3)) (mul (of_Z 100) (dec 4 2)) = true)
    by (vm_compute; reflexivity).
  split; [exact H1|]. split; [exact H2|].
  exact (sponsorship_fees_agree (of_Z 100) H1 H2).
Defined.

End FeeServiceMore.



(** ** More of the ledger store *)

Module LedgerMore.
Import Ledger LedgerProps Vocabulary.

Lemma prefix_app (p s : string) : String.prefix p (p +:+ s) = true.
Proof.
  induction p as [|a p IH]; [by destruct s|].
  change (String a p +:+ s) with (String a (p +:+ s)).
  cbn [String.prefix]. by destruct (Ascii.ascii_dec a a).
Qed.

Lemma Sorted_take {A} (R : relation A) (n : nat) (l : list A) :
  Sorted R l → Sorted R (take n l).
Proof.
  intros Hs. revert n. induction Hs as [|x l Hs IH Hd]; intros [|n]; cbn;
    try constructor; [apply IH|].
  destruct Hd as [|y l' Hxy]; destruct n; cbn; constructor; done.
Qed.

Section Users.
Context (rt : Runtime).

(** X4.  A user written by [create_user] is read back unchanged by
    [get_user] under the same identifier, whatever was stored for that
    identifier before: the record carries the e-mail address and the role
    given, the first clock reading as [created_at] and the second as
    [updated_at]. *)
Theorem create_user_get_user u e r w (item : Item) w' :
  create_user rt u e r w = (Ok item, w') →
  backend_fault rt (backend_calls w') = None →
  ∃ w'',
    get_user rt u w' = (Ok (Some item), w'')
    ∧ item !! "email" = Some (VStr e)
    ∧ item !! "role" = Some (VStr r)
    ∧ item !! "created_at"
      = Some (VStr (isoformat rt (utcnow rt (clock_reads w))))
    ∧ item !! "updated_at"
      = Some (VStr (isoformat rt (utcnow rt (S (clock_reads w))))).
Proof.
  intros H Hget. writer_inv H. cbn [backend_calls store tick_backend] in Hget.
  eexists. split.
  - unfold get_user. rewrite get_item_run.
    cbn [backend_calls store tick_backend table]. rewrite Hget.
    by rewrite lookup_insert_eq.
  - repeat split; read_keys; reflexivity.
Qed.

End Users.

Section Frame.
Context (rt : Runtime).

Lemma some_pair_inv {A B} (a c : A) (b d : B) :
  Some (a, b) = Some (c, d) → a = c ∧ b = d.
Proof. by intros [= -> ->]. Qed.

(** A method changes the table at the key it writes to and nowhere else. *)
Lemma run_op_frame op w k :
  written_key rt op w ≠ Some k →
  table (run_op rt op w).2 !! k = table w !! k.
Proof.
  intros Hk. destruct op; cbn [written_key] in Hk;
    unfold run_op, discard, get_contract_for_compliance, create_user,
      get_user, create_contract, get_contract, get_user_contracts,
      log_transaction, get_contract_transactions, get_wallet_transactions,
      record_deployment_fee, record_subscription_fee, record_premium_fee,
      get_transactions_by_date_range.
  1, 3, 6, 9, 10, 11:
    run_writer; destruct (backend_fault rt (backend_calls w));
    [done|rewrite run_ret; cbn [snd table store tick_backend];
          apply lookup_insert_ne; congruence].
  1, 2, 3, 4, 5, 7:
    rewrite run_bind, ?get_item_run, ?query_run;
    by destruct (backend_fault rt (backend_calls w)).
  - rewrite run_bind.
    pose proof (get_fee_analytics_table rt w) as Ht.
    destruct (get_fee_analytics rt w) as [[a|e] w1]; cbn in *; by rewrite Ht.
  - rewrite !run_bind, get_item_run.
    destruct (backend_fault rt (backend_calls w)); [done|].
    destruct (table w !! _) as [c|]; cbn beta iota;
      [destruct (bool_decide (c = ∅))|];
      repeat (progress (rewrite ?run_bind, ?run_ret, ?query_run; cbn beta iota));
      try done.
    cbn [backend_calls tick_backend table].
    by destruct (backend_fault rt (S (backend_calls w))).
Qed.

(** X5.  No method of the store deletes: a primary key that holds a record
    before a call holds one after it, whether the call returns or raises. *)
Theorem operations_never_remove op w k :
  is_Some (table w !! k) → is_Some (table (run_op rt op w).2 !! k).
Proof.
  intros Hk. destruct (decide (written_key rt op w = Some k)) as [Hw|Hw].
  - destruct (run_op_table rt op w) as [->|(k' & item & Ht & _)]; [done|].
    rewrite Ht. destruct (decide (k' = k)) as [->|Hne].
    + rewrite lookup_insert_eq. by eexists.
    + by rewrite lookup_insert_ne.
  - by rewrite run_op_frame.
Qed.

(** X6.  The [METADATA] record of a user is written by [create_user] for
    that user and by no other call, and the [METADATA] record of a contract
    by [create_contract] only: every other method leaves those keys as they
    are. *)
Theorem metadata_written_by_creator_only op w :
  (∀ u, creates_user u op = false →
     table (run_op rt op w).2 !! ("USER#" +:+ u, "METADATA")
     = table w !! ("USER#" +:+ u, "METADATA"))
  ∧ (∀ c, creates_contract op = false →
     table (run_op rt op w).2 !! ("CONTRACT#" +:+ c, "METADATA")
     = table w !! ("CONTRACT#" +:+ c, "METADATA")).
Proof.
  split; intros x Hx; apply run_op_frame; destruct op; cbn in Hx |- *;
    try done; intros [H1 H2]%some_pair_inv; try discriminate H2.
  apply String.app_inj in H1. subst. by rewrite String.eqb_refl in Hx.
Qed.

End Frame.

Section Transactions.
Context (rt : Runtime).

#[local] Instance sort_le_transitive ix : Transitive (sort_le ix).
Proof. intros i j k. unfold sort_le. apply transitivity. Qed.

#[local] Instance sort_le_connected ix : Total (sort_le ix).
Proof. intros i j. unfold sort_le. apply total, _. Qed.

Lemma query_inv ix c fwd limit w l w' :
  query rt ix c fwd limit w = (Ok l, w') →
  backend_fault rt (backend_calls w) = None
  ∧ l = select ix c fwd limit (table w) ∧ w' = tick_backend w.
Proof.
  rewrite query_run. destruct (backend_fault rt (backend_calls w)); [done|].
  by intros [<- <-]%run_ok_inv.
Qed.

Lemma eval_AttrEq a v (item : Item) :
  eval_cond (AttrEq a v) item = true ↔ str_attr a item = Some v.
Proof.
  cbn [eval_cond]. destruct (str_attr a item) as [s|]; [|done].
  rewrite String.eqb_eq. split; congruence.
Qed.

Lemma eval_AttrBeginsWith a p (item : Item) :
  eval_cond (AttrBeginsWith a p) item = true ↔ attr_begins_with a p item.
Proof.
  cbn [eval_cond]. unfold attr_begins_with. split.
  - destruct (str_attr a item) as [s|]; [|done]. by exists s.
  - by intros (s & -> & Hs).
Qed.

Lemma eval_CondAnd c1 c2 (item : Item) :
  eval_cond (CondAnd c1 c2) item = true
  ↔ eval_cond c1 item = true ∧ eval_cond c2 item = true.
Proof. cbn [eval_cond]. apply andb_true_iff. Qed.

Lemma log_transaction_selected c h t a r w (tx : Item) w' c' :
  log_transaction rt c h t a r w = (Ok tx, w') →
  tx ∈ select Primary
         (CondAnd (AttrEq "PK" ("CONTRACT#" +:+ c')) (AttrBeginsWith "SK" "TX#"))
         true None (table w')
  ↔ c = c'.
Proof.
  intros H. writer_inv H. rewrite elem_of_select, eval_CondAnd, eval_AttrEq,
    eval_AttrBeginsWith. unfold in_index, attr_begins_with.
  cbn [partition_attr sort_attr]. read_keys. split.
  - intros (_ & [[= Hc%(inj _)] _] & _). done.
  - intros <-. split; [done|]. split.
    + split; [done|]. eexists. split; [done|]. apply prefix_app.
    + eexists. cbn [table store]. apply lookup_insert_eq.
Qed.

(** X7.  A transaction logged for contract [c] is among the rows
    [get_contract_transactions] returns for [c'] exactly when [c = c'];
    every row returned for [c'] lies in the partition [CONTRACT#c'] under a
    sort key that starts with [TX#], and the rows come in ascending order of
    the sort key. *)
Theorem log_transaction_listed c h t a r w (tx : Item) w' c' l w'' :
  log_transaction rt c h t a r w = (Ok tx, w') →
  get_contract_transactions rt c' w' = (Ok l, w'') →
  (tx ∈ l ↔ c = c')
  ∧ (∀ x, x ∈ l →
       str_attr "PK" x = Some ("CONTRACT#" +:+ c')
       ∧ attr_begins_with "SK" "TX#" x)
  ∧ Sorted (sort_le Primary) l.
Proof.
  intros H (_ & -> & _)%query_inv.
  split; [by eapply log_transaction_selected|]. split.
  - intros x (_ & Hc & _)%elem_of_select.
    by rewrite eval_CondAnd, eval_AttrEq, eval_AttrBeginsWith in Hc.
  - apply select_sorted.
Qed.

Lemma take_drop_sorted {A} (R : relation A) `{!Transitive R} (n : nat)
    (l : list A) (x y : A) :
  Sorted R l → y ∈ take n l → x ∈ drop n l → R y x.
Proof.
  intros Hs%Sorted_StronglySorted Hy Hx; [|done].
  rewrite <- (take_drop n l) in Hs.
  by eapply StronglySorted_app_1_elem_of.
Qed.

(** X8.  [get_wallet_transactions] returns at most [limit] rows, in
    descending order of the sort key of the first index; each is a stored
    row filed under [WALLET#<address>] with a sort key that starts with
    [TX#].  A stored row of that wallet which is left out is left out
    because the limit is reached, and no row returned has a smaller sort
    key than it. *)
Theorem get_wallet_transactions_newest a limit w l w' :
  get_wallet_transactions rt a limit w = (Ok l, w') →
  (length l ≤ limit)%nat
  ∧ Sorted (flip (sort_le GSI1)) l
  ∧ (∀ x, x ∈ l →
       str_attr "GSI1PK" x = Some ("WALLET#" +:+ a)
       ∧ attr_begins_with "GSI1SK" "TX#" x
       ∧ ∃ k, table w !! k = Some x)
  ∧ (∀ k x, table w !! k = Some x →
       str_attr "GSI1PK" x = Some ("WALLET#" +:+ a) →
       attr_begins_with "GSI1SK" "TX#" x →
       x ∉ l →
       length l = limit ∧ ∀ y, y ∈ l → sort_le GSI1 x y).
Proof.
  intros (_ & -> & _)%query_inv. unfold select.
  set (c := CondAnd _ _).
  set (L := reverse (merge_sort _ _)).
  assert (HL : Sorted (flip (sort_le GSI1)) L).
  { apply Sorted_reverse, (Sorted_merge_sort (sort_le GSI1)). }
  assert (Hin : ∀ x, x ∈ L ↔
    in_index GSI1 x = true ∧ eval_cond c x = true ∧ ∃ k, table w !! k = Some x).
  { intros x. rewrite <- (elem_of_select GSI1 c false). done. }
  split; [|split; [|split]].
  - rewrite length_take. lia.
  - by apply Sorted_take.
  - intros x Hx%subseteq_take. apply Hin in Hx as (_ & Hc & Hk).
    subst c. rewrite eval_CondAnd, eval_AttrEq, eval_AttrBeginsWith in Hc.
    destruct Hc. auto.
  - intros k x Hk Hpk Hsk Hx.
    assert (HxL : x ∈ L).
    { apply Hin. split; [|split; [|by exists k]].
      - unfold in_index. cbn [partition_attr sort_attr]. rewrite Hpk.
        by destruct Hsk as (s & -> & _).
      - subst c. by rewrite eval_CondAnd, eval_AttrEq, eval_AttrBeginsWith. }
    rewrite <- (take_drop limit L), elem_of_app in HxL.
    destruct HxL as [?|Hd]; [done|]. split.
    + rewrite length_take. apply list_elem_of_lookup in Hd as [i Hi].
      rewrite lookup_drop in Hi. apply lookup_lt_Some in Hi. lia.
    + intros y Hy. by apply (take_drop_sorted (flip (sort_le GSI1)) limit L x y).
Qed.

End Transactions.

Section Reports.
Context (rt : Runtime).

Lemma create_contract_inv u a s c abi n p f d w (contract : Item) w1 :
  create_contract rt u a s c abi n p f d w = (Ok contract, w1) →
  table w1
  = <[("CONTRACT#" +:+ uuid4 rt (uuid_calls w), "METADATA") := contract]> (table w)
  ∧ str_attr "SK" contract = Some "METADATA".
Proof. intros H. writer_inv H. split; [done|]. by read_keys. Qed.



End Reports.

Section Analytics.
Context (rt : Runtime).

Lemma sum_fees_count (items : list Item) t n t' n' :
  sum_fees rt items (t, n) = Ok (t', n') →
  n' = n + Z.of_nat (length (filter (λ i : Item, is_Some (i !! "fee_usd")) items))
  ∧ (n' = n → t' = t)
  ∧ (n < n' → ∃ x, t' = PFloat x).
Proof.
  revert t n. induction items as [|item items IH]; intros t n H; cbn in H.
  - injection H as <- <-. cbn. split; [lia|]. split; [done|lia].
  - destruct (item !! "fee_usd") as [v|] eqn:Hv.
    + rewrite filter_cons_True by (by rewrite Hv).
      destruct (py_float rt v) as [x|e]; [|discriminate H].
      apply IH in H as (-> & H0 & H1). cbn [length]. split; [lia|].
      split; [lia|]. intros _.
      destruct (decide (n + 1 + Z.of_nat (length
        (filter (λ i : Item, is_Some (i !! "fee_usd")) items)) = n + 1))
        as [Heq|Hne].
      * rewrite (H0 Heq). destruct t; by eexists.
      * apply H1. lia.
    + rewrite filter_cons_False by (rewrite Hv; by intros [? ?]).
      by apply IH.
Qed.

(** X10.  [get_fee_analytics] always returns, leaves the table as it is,
    and never fills [by_deal_size] or [top_users].  When it fills [overall],
    [total_deals] is the number of scanned rows that carry a [fee_usd]; with
    no such row the revenue and the average are the integer 0, otherwise
    both are floats. *)
Theorem get_fee_analytics_shape w :
  ∃ a w',
    get_fee_analytics rt w = (Ok a, w')
    ∧ table w' = table w
    ∧ by_deal_size a = [] ∧ top_users a = []
    ∧ ∀ o, overall a = Some o →
        total_deals o = Z.of_nat (length (fee_rows (table w)))
        ∧ (total_deals o = 0 → total_revenue o = PInt 0 ∧ avg_fee o = PInt 0)
        ∧ (0 < total_deals o →
           ∃ x y, total_revenue o = PFloat x ∧ avg_fee o = PFloat y).
Proof.
  unfold get_fee_analytics, try_except. rewrite run_bind, scan_run.
  destruct (backend_fault rt (backend_calls w)).
  { by eexists _, _. }
  rewrite run_bind. unfold lift at 1.
  destruct (sum_fees _ _ _) as [[total count]|e] eqn:Hs.
  2: { by eexists _, _. }
  apply sum_fees_count in Hs as (Hn & H0 & H1). cbn [fst snd].
  rewrite run_bind. destruct (0 <? count) eqn:Hc.
  - apply Z.ltb_lt in Hc. destruct (H1 Hc) as [x ->].
    rewrite run_bind. unfold lift.
    destruct (truediv _ _) as [q|e]; [|by eexists _, _].
    eexists _, _. do 4 (split; [done|]). intros o [= <-]. cbn.
    split; [by rewrite Hn|]. split; [lia|]. by eexists _, _.
  - apply Z.ltb_ge in Hc.
    eexists _, _. do 4 (split; [done|]). intros o [= <-]. cbn.
    split; [by rewrite Hn|]. split; [|lia]. intros ->.
    by rewrite H0 by lia.
Qed.

(** X11.  On every table the service can build from the empty one,
    [get_transactions_by_date_range] returns rows of the requested entity
    type only, each with [start_date <= created_at <= end_date] as strings,
    in ascending order of [created_at]. *)
Theorem date_range_on_reachable w t0 t1 ty l w' :
  reachable rt w →
  get_transactions_by_date_range rt t0 t1 ty w = (Ok l, w') →
  Sorted created_le l
  ∧ ∀ x, x ∈ l →
      str_attr "GSI2PK" x = Some ty
      ∧ String.leb t0 (created_at_of x) = true
      ∧ String.leb (created_at_of x) t1 = true.
Proof.
  intros Hti%reachable_time_indexed (_ & -> & _)%query_inv.
  assert (Hkey : ∀ x : Item,
    x ∈ select GSI2 (CondAnd (AttrEq "GSI2PK" ty) (AttrBetween "GSI2SK" t0 t1))
          true None (table w) →
    sort_key GSI2 x = created_at_of x).
  { intros x (Hx & _ & [kx Hkx])%elem_of_select.
    unfold sort_key, created_at_of. cbn [sort_attr].
    by rewrite (Hti kx x Hkx Hx). }
  split.
  - eapply Sorted_weaken; [|apply select_sorted].
    intros x y Hx Hy. unfold sort_le, created_le.
    by rewrite (Hkey x Hx), (Hkey y Hy).
  - intros x Hx. pose proof (Hkey x Hx) as Hk.
    apply elem_of_select in Hx as (_ & Hc & _).
    rewrite eval_CondAnd, eval_AttrEq in Hc. destruct Hc as [Hpk Hb].
    split; [done|]. cbn [eval_cond] in Hb. unfold sort_key in Hk.
    cbn [sort_attr] in Hk. destruct (str_attr "GSI2SK" x) as [s|]; [|done].
    subst s. by apply andb_prop in Hb.
Qed.

Lemma sum_fees_readable (items : list Item) acc :
  (∀ item, item ∈ items → fee_readable rt item) →
  ∃ r, sum_fees rt items acc = Ok r.
Proof.
  revert acc. induction items as [|item items IH]; intros acc H; cbn.
  - by eexists.
  - assert (Hi : fee_readable rt item) by (apply H; left).
    assert (H' : ∀ i, i ∈ items → fee_readable rt i) by (intros; apply H; by right).
    unfold fee_readable in Hi. destruct (item !! "fee_usd") as [v|].
    + destruct Hi as [x ->]. by apply IH.
    + by apply IH.
Qed.

(** A method leaves the table alone or stores one item whose [fee_usd], if
    it has one, is a [Decimal]. *)
Lemma run_op_fee_readable op w :
  table (run_op rt op w).2 = table w
  ∨ ∃ k (item : Item),
      table (run_op rt op w).2 = <[k := item]> (table w)
      ∧ fee_readable rt item.
Proof.
  destruct (decide (written_key rt op w = None)) as [Hk|Hk].
  { left. apply map_eq. intros k. apply run_op_frame. by rewrite Hk. }
  destruct op; cbn [written_key] in Hk; try done; clear Hk;
    unfold run_op, discard, create_user, create_contract, log_transaction,
      record_deployment_fee, record_subscription_fee, record_premium_fee;
    (run_writer; destruct (backend_fault rt (backend_calls w));
     [by left|right; rewrite run_ret; eexists _, _; split; [reflexivity|]]);
    unfold fee_readable; read_keys; by eexists.
Qed.

Lemma reachable_fees_readable w : reachable rt w → fees_readable rt (table w).
Proof.
  induction 1 as [|op w _ IH].
  - intros k item Hk. cbn [empty_world table] in Hk. by rewrite lookup_empty in Hk.
  - destruct (run_op_fee_readable op w) as [->|(k & item & -> & Hi)]; [done|].
    intros k' item' Hk'. destruct (decide (k = k')) as [->|Hne].
    + rewrite lookup_insert_eq in Hk'. by simplify_eq.
    + rewrite lookup_insert_ne in Hk' by done. by eapply IH.
Qed.

(** X12.  On every table the service can build from the empty one,
    [get_fee_analytics] fills [overall] whenever the store answers the scan:
    every stored [fee_usd] is a [Decimal], which [float] reads, and the
    division by the fee count cannot fail, since a positive integer is never
    the float zero.  [total_deals] is the number of fee records. *)
Theorem get_fee_analytics_on_reachable w :
  reachable rt w →
  backend_fault rt (backend_calls w) = None →
  ∃ o w',
    get_fee_analytics rt w
    = (Ok {| by_deal_size := []; overall := Some o; top_users := [] |}, w')
    ∧ total_deals o = Z.of_nat (length (fee_rows (table w))).
Proof.
  intros Hr%reachable_fees_readable Hf.
  unfold get_fee_analytics, try_except. rewrite run_bind, scan_run, Hf.
  rewrite run_bind. unfold lift at 1.
  destruct (sum_fees_readable
              (filter (λ i, eval_cond fee_filter i) (rows (table w))) (PInt 0, 0))
    as [[total count] Hs].
  { intros item [_ [k Hk]%elem_of_rows]%list_elem_of_filter. by eapply Hr. }
  rewrite Hs. apply sum_fees_count in Hs as (Hn & _ & _). cbn [fst snd].
  rewrite run_bind. destruct (0 <? count) eqn:Hc.
  - apply Z.ltb_lt in Hc. rewrite run_bind. unfold lift, truediv.
    rewrite Float64More.of_Z_nonzero by lia.
    eexists _, _. split; [reflexivity|]. by rewrite Hn.
  - eexists _, _. split; [reflexivity|]. by rewrite Hn.
Qed.

Lemma rows_insert (t : Table) k (item : Item) :
  t !! k = None → rows (<[k := item]> t) ≡ₚ item :: rows t.
Proof.
  intros Hk. unfold rows. by rewrite map_to_list_insert.
Qed.

Lemma fee_rows_insert (t : Table) k (item : Item) :
  t !! k = None →
  length (fee_rows (<[k := item]> t))
  = if bool_decide (is_Some (item !! "fee_usd"))
         && eval_cond fee_filter item
    then S (length (fee_rows t)) else length (fee_rows t).
Proof.
  intros Hk. unfold fee_rows. rewrite (rows_insert t k item Hk).
  destruct (eval_cond fee_filter item) eqn:Hc.
  - rewrite filter_cons_True by (by rewrite Hc).
    destruct (bool_decide_reflect (is_Some (item !! "fee_usd"))) as [Hs|Hs].
    + by rewrite filter_cons_True.
    + by rewrite filter_cons_False.
  - rewrite filter_cons_False by (rewrite Hc; exact id). by rewrite andb_false_r.
Qed.

(** X13.  A successful write under a primary key that is not in use
    raises the count of rows the analytics add up by one when the method is
    one of the three [record_*_fee] methods, and leaves it as it is for
    [create_user], [create_contract] and [log_transaction]. *)
Theorem analytics_counts_new_fees op w k :
  written_key rt op w = Some k →
  table w !! k = None →
  (run_op rt op w).1 = Ok tt →
  length (fee_rows (table (run_op rt op w).2))
  = if records_fee op then S (length (fee_rows (table w)))
    else length (fee_rows (table w)).
Proof.
  intros Hk Hfresh. destruct op; cbn [written_key] in Hk;
    try discriminate Hk; injection Hk as <-;
    unfold run_op, discard, create_user, create_contract, log_transaction,
      record_deployment_fee, record_subscription_fee, record_premium_fee;
    run_writer; (destruct (backend_fault rt (backend_calls w)); [done|]);
    rewrite !run_ret; intros _; cbn [snd table store tick_backend records_fee];
    rewrite (fee_rows_insert _ _ _ Hfresh); read_keys;
    cbn [eval_cond fee_filter]; read_keys; try reflexivity.
  cbn [is_Some]. rewrite prefix_app. reflexivity.
Qed.

End Analytics.

(** *** The statements on sample runs *)

Lemma sample_user_run_ok :
  sample_user_run = (Ok (item_of sample_user_run), sample_user_run.2).
Proof.
  unfold item_of, sample_user_run, create_user. run_writer.
  change (backend_fault sample_runtime _) with (@None Exn). reflexivity.
Qed.

Lemma sample_transaction_run_ok :
  sample_transaction_run
  = (Ok (item_of sample_transaction_run), sample_transaction_run.2).
Proof.
  unfold item_of, sample_transaction_run, log_transaction. run_writer.
  change (backend_fault sample_runtime _) with (@None Exn). reflexivity.
Qed.

Lemma create_user_get_user_witness :
  ∃ w'',
    get_user sample_runtime "u1" sample_user_run.2
    = (Ok (Some (item_of sample_user_run)), w'')
    ∧ item_of sample_user_run !! "email" = Some (VStr "u1@example.org")
    ∧ item_of sample_user_run !! "role" = Some (VStr "athlete")
    ∧ item_of sample_user_run !! "created_at"
      = Some (VStr (iso8601 1705314600000000))
    ∧ item_of sample_user_run !! "updated_at"
      = Some (VStr (iso8601 1705314600250000)).
Proof.
  apply (create_user_get_user sample_runtime "u1" "u1@example.org" "athlete"
           empty_world).
  - exact sample_user_run_ok.
  - reflexivity.
Defined.

Lemma operations_never_remove_witness :
  is_Some (table sample_contract_run.2 !! ("CONTRACT#id-000000", "METADATA"))
  ∧ is_Some (table (run_op sample_runtime
                      (OpCreateUser "u1" "u1@example.org" "athlete")
                      sample_contract_run.2).2
             !! ("CONTRACT#id-000000", "METADATA")).
Proof.
  assert (H : is_Some (table sample_contract_run.2
                       !! ("CONTRACT#id-000000", "METADATA"))).
  { destruct (create_contract_inv sample_runtime _ _ _ _ _ _ _ _ _ _ _ _
                sample_contract_run_ok) as [Ht _].
    rewrite Ht. exists (item_of sample_contract_run). apply lookup_insert_eq. }
  split; [exact H|].
  by apply (operations_never_remove sample_runtime).
Defined.

Lemma log_transaction_listed_witness :
  ∃ l w'',
    get_contract_transactions sample_runtime "id-000000" sample_transaction_run.2
    = (Ok l, w'')
    ∧ (item_of sample_transaction_run ∈ l ↔ "id-000000" = "id-000000")
    ∧ (∀ x, x ∈ l →
         str_attr "PK" x = Some "CONTRACT#id-000000"
         ∧ attr_begins_with "SK" "TX#" x)
    ∧ Sorted (sort_le Primary) l.
Proof.
  destruct (get_contract_transactions sample_runtime "id-000000"
              sample_transaction_run.2) as [[l|e] w''] eqn:E.
  - exists l, w''. split; [reflexivity|].
    exact (log_transaction_listed sample_runtime _ _ _ _ _ _ _ _ _ _ _
             sample_transaction_run_ok E).
  - unfold get_contract_transactions in E. rewrite query_run in E.
    discriminate E.
Defined.

Lemma get_wallet_transactions_newest_witness :
  ∃ l w',
    get_wallet_transactions sample_runtime "0xAthlete" 50
      sample_transaction_run.2 = (Ok l, w')
    ∧ (length l ≤ 50)%nat
    ∧ Sorted (flip (sort_le GSI1)) l.
Proof.
  destruct (get_wallet_transactions sample_runtime "0xAthlete" 50
              sample_transaction_run.2) as [[l|e] w'] eqn:E.
  - exists l, w'. split; [reflexivity|].
    destruct (get_wallet_transactions_newest sample_runtime _ _ _ _ _ E)
      as (H1 & H2 & _). by split.
  - unfold get_wallet_transactions in E. rewrite query_run in E.
    discriminate E.
Defined.


Lemma sample_fee_world_reachable : reachable sample_runtime sample_fee_world.
Proof. apply reach_step, reach_empty. Qed.

Lemma date_range_on_reachable_witness :
  ∃ l w',
    get_transactions_by_date_range sample_runtime "2024-01-01" "2024-12-31" "FEE"
      sample_fee_world = (Ok l, w')
    ∧ Sorted created_le l
    ∧ ∀ x, x ∈ l →
        str_attr "GSI2PK" x = Some "FEE"
        ∧ String.leb "2024-01-01" (created_at_of x) = true
        ∧ String.leb (created_at_of x) "2024-12-31" = true.
Proof.
  destruct (get_transactions_by_date_range sample_runtime "2024-01-01"
              "2024-12-31" "FEE" sample_fee_world) as [[l|e] w'] eqn:E.
  - exists l, w'. split; [reflexivity|].
    exact (date_range_on_reachable sample_runtime _ _ _ _ _ _
             sample_fee_world_reachable E).
  - unfold get_transactions_by_date_range in E. rewrite query_run in E.
    discriminate E.
Defined.

Lemma get_fee_analytics_on_reachable_witness :
  ∃ o w',
    get_fee_analytics sample_runtime sample_fee_world
    = (Ok {| by_deal_size := []; overall := Some o; top_users := [] |}, w')
    ∧ total_deals o = Z.of_nat (length (fee_rows (table sample_fee_world))).
Proof.
  apply (get_fee_analytics_on_reachable sample_runtime).
  - exact sample_fee_world_reachable.
  - reflexivity.
Defined.

Lemma analytics_counts_new_fees_witness :
  length (fee_rows (table
    (run_op sample_runtime
       (OpRecordPremiumFee "u1" "athlete" "priority_oracle" (dec 700 2))
       empty_world).2))
  = S (length (fee_rows (table empty_world))).
Proof.
  apply (analytics_counts_new_fees sample_runtime
           (OpRecordPremiumFee "u1" "athlete" "priority_oracle" (dec 700 2))
           empty_world ("USER#u1", "PREMIUM#id-000000")).
  - reflexivity.
  - reflexivity.
  - unfold run_op, discard, record_premium_fee. run_writer. reflexivity.
Defined.
End LedgerMore.

(** ** The fee endpoints *)

Module ApiProps.
Import FeeService Ledger Integration Api LedgerProps Vocabulary.

Lemma log_and_reraise_run {A} (m : M A) w : log_and_reraise m w = m w.
Proof.
  unfold log_and_reraise, try_except, raise.
  by destruct (m w) as [[a|e] w'].
Qed.

Lemma eqb_neq_false (s1 s2 : string) : s1 ≠ s2 → String.eqb s1 s2 = false.
Proof. intros H. by apply String.eqb_neq. Qed.

Section Endpoints.
Context (rt : Runtime).

(** X14.  When [/subscribe] succeeds, the billing cycle, the monthly fee
    and the next billing date of its answer are those
    [calculate_subscription_fee] gives on the default structure for the
    same cycle and the same reading of the clock, for every cycle string. *)
Theorem subscribe_user_terms now request w body w' :
  subscribe_user rt now request w = (Returns body, w') →
  let terms :=
    calculate_subscription_fee FeeStructure_default (isoformat rt) now
      (sub_billing_cycle request) in
  dict_get body "billing_cycle" JNone = JStr (billing_cycle terms)
  ∧ dict_get body "monthly_fee_usd" JNone = JFloat (monthly_fee_usd terms)
  ∧ dict_get body "next_billing_date" JNone = JStr (next_billing_date terms).
Proof.
  unfold subscribe_user, calculate_subscription_fee.
  destruct (String.eqb_spec (sub_billing_cycle request) "monthly") as [->|_];
    [cbn [String.eqb Ascii.eqb Bool.eqb]|
     destruct (String.eqb (sub_billing_cycle request) "quarterly");
     [|destruct (String.eqb (sub_billing_cycle request) "annual")]];
    cbn beta iota zeta;
    (destruct (Integration.record_subscription_fee _ _ _ _ _ _) as [[r|e] w1];
     [|discriminate]);
    intros [= <- _]; done.
Qed.

Lemma record_subscription_fee_run uid ut plan fee w :
  Integration.record_subscription_fee rt uid ut plan fee w
  = match Ledger.record_subscription_fee rt (py_str uid) ut plan fee w with
    | (Ok _, w') =>
        (Ok [("success", JBool true);
             ("subscription_fee_usd", JFloat fee);
             ("plan", JStr plan);
             ("competitiveness",
              JStr "Undercuts traditional NIL platforms by 50-70%")], w')
    | (Raise e, w') => (Raise e, w')
    end.
Proof.
  unfold Integration.record_subscription_fee.
  rewrite log_and_reraise_run, run_bind.
  by destruct (Ledger.record_subscription_fee _ _ _ _ _ _) as [[i|e] w'].
Qed.

Lemma record_premium_fee_run uid ut name fee w :
  Integration.record_premium_fee rt uid ut name fee w
  = match Ledger.record_premium_fee rt (py_str uid) ut name fee w with
    | (Ok _, w') =>
        (Ok [("success", JBool true);
             ("premium_fee_usd", JFloat fee);
             ("feature", JStr name);
             ("competitiveness",
              JStr "Flexible premium features undercutting enterprise solutions")],
         w')
    | (Raise e, w') => (Raise e, w')
    end.
Proof.
  unfold Integration.record_premium_fee.
  rewrite log_and_reraise_run, run_bind.
  by destruct (Ledger.record_premium_fee _ _ _ _ _ _) as [[i|e] w'].
Qed.

Lemma record_deployment_fee_run uid ut ct fee w :
  Integration.record_deployment_fee rt uid ut ct fee w
  = match Ledger.record_deployment_fee rt (py_str uid) ut ct fee w with
    | (Ok _, w') =>
        (Ok [("success", JBool true);
             ("deployment_fee_usd", JFloat fee);
             ("contract_type", JStr ct);
             ("competitiveness",
              JStr "Undercuts traditional deployment costs by 60-80%")], w')
    | (Raise e, w') => (Raise e, w')
    end.
Proof.
  unfold Integration.record_deployment_fee.
  rewrite log_and_reraise_run, run_bind.
  by destruct (Ledger.record_deployment_fee _ _ _ _ _ _) as [[i|e] w'].
Qed.

(** What the three writers of fee records do with the request they send. *)
Lemma ledger_subscription_run u ut plan fee w :
  ∃ item : Item,
    Ledger.record_subscription_fee rt u ut plan fee w
    = match backend_fault rt (backend_calls w) with
      | Some e => (Raise e, tick_backend (tick_clock (tick_clock (tick_uuid w))))
      | None =>
          (Ok item,
           store ("USER#" +:+ u) ("SUB#" +:+ uuid4 rt (uuid_calls w)) item
             (tick_backend (tick_clock (tick_clock (tick_uuid w)))))
      end
    ∧ item !! "plan" = Some (VStr plan)
    ∧ item !! "fee_usd" = Some (VDecimal fee)
    ∧ item !! "end_date"
      = Some (VStr (isoformat rt (utcnow rt (S (clock_reads w))
                                  + timedelta_days (period_days plan)))).
Proof.
  eexists. split.
  - unfold Ledger.record_subscription_fee. run_writer.
    destruct (backend_fault rt (backend_calls w)); [reflexivity|].
    rewrite run_ret. reflexivity.
  - unfold period_days.
    destruct (String.eqb plan "quarterly"), (String.eqb plan "annual");
      by read_keys.
Qed.

Lemma ledger_premium_run u ut name fee w :
  ∃ item : Item,
    Ledger.record_premium_fee rt u ut name fee w
    = match backend_fault rt (backend_calls w) with
      | Some e => (Raise e, tick_backend (tick_clock (tick_uuid w)))
      | None =>
          (Ok item,
           store ("USER#" +:+ u) ("PREMIUM#" +:+ uuid4 rt (uuid_calls w)) item
             (tick_backend (tick_clock (tick_uuid w))))
      end
    ∧ item !! "feature_name" = Some (VStr name)
    ∧ item !! "fee_usd" = Some (VDecimal fee).
Proof.
  eexists. split.
  - unfold Ledger.record_premium_fee. run_writer.
    destruct (backend_fault rt (backend_calls w)); [reflexivity|].
    rewrite run_ret. reflexivity.
  - by read_keys.
Qed.

Lemma ledger_deployment_run u ut ct fee w :
  ∃ item : Item,
    Ledger.record_deployment_fee rt u ut ct fee w
    = match backend_fault rt (backend_calls w) with
      | Some e => (Raise e, tick_backend (tick_clock (tick_uuid w)))
      | None =>
          (Ok item,
           store ("FEE#" +:+ uuid4 rt (uuid_calls w)) "DEPLOYMENT" item
             (tick_backend (tick_clock (tick_uuid w))))
      end
    ∧ item !! "user_id" = Some (VStr u)
    ∧ item !! "contract_type" = Some (VStr ct)
    ∧ item !! "fee_usd" = Some (VDecimal fee).
Proof.
  eexists. split.
  - unfold Ledger.record_deployment_fee. run_writer.
    destruct (backend_fault rt (backend_calls w)); [reflexivity|].
    rewrite run_ret. reflexivity.
  - by read_keys.
Qed.

(** X15.  When [/subscribe] succeeds, the subscription stored for the
    user carries the plan name and the monthly fee of the answer, but its
    [end_date] follows the plan name, not the billing cycle: it is 90 days
    after the clock reading of the store for the plan ["quarterly"], 365 for
    ["annual"] and 30 for every other plan, while [next_billing_date] in the
    answer is 30, 90 or 365 days ahead according to the billing cycle. *)
Theorem subscribe_user_stored_period now request w body w' :
  subscribe_user rt now request w = (Returns body, w') →
  ∃ (item : Item) fee,
    table w' !! ("USER#" +:+ py_str (sub_user_id request),
                 "SUB#" +:+ uuid4 rt (uuid_calls w)) = Some item
    ∧ item !! "plan" = Some (VStr (sub_plan_name request))
    ∧ item !! "end_date"
      = Some (VStr (isoformat rt
                      (utcnow rt (S (clock_reads w))
                       + timedelta_days (period_days (sub_plan_name request)))))
    ∧ item !! "fee_usd" = Some (VDecimal fee)
    ∧ dict_get body "monthly_fee_usd" JNone = JFloat fee
    ∧ dict_get body "next_billing_date" JNone
      = JStr (isoformat rt
                (now + days (if String.eqb (sub_billing_cycle request) "monthly"
                             then 30
                             else period_days (sub_billing_cycle request)))).
Proof.
  unfold subscribe_user.
  set (terms := if String.eqb (sub_billing_cycle request) "monthly" then _ else _).
  assert (Hterms : ∃ fee, terms
    = (now + days (if String.eqb (sub_billing_cycle request) "monthly" then 30
                   else period_days (sub_billing_cycle request)), fee)).
  { subst terms. unfold period_days.
    destruct (String.eqb _ "monthly"); [by eexists|].
    destruct (String.eqb _ "quarterly"); [by eexists|].
    destruct (String.eqb _ "annual"); by eexists. }
  destruct Hterms as [fee ->]. cbn beta iota zeta.
  rewrite record_subscription_fee_run.
  destruct (ledger_subscription_run (py_str (sub_user_id request))
              (sub_user_type request) (sub_plan_name request) fee w)
    as (item & -> & Hplan & Hfee & Hend).
  destruct (backend_fault rt (backend_calls w)); [discriminate|].
  intros [= <- <-]. exists item, fee. cbn [table store].
  rewrite lookup_insert_eq. done.
Qed.

(** X16.  [/premium-feature] answers with status 400 and the store,
    identifier generator and clock untouched exactly when
    [validate_premium_feature_fee] refuses the fee on the default
    structure. *)
Theorem purchase_premium_feature_refuses request w :
  purchase_premium_feature rt request w
  = (Raises {| status_code := 400;
               detail := JStr "Premium feature fee must be between $5 and $10" |},
     w)
  ↔ validate_premium_feature_fee FeeStructure_default
      (prem_feature_fee_usd request) = false.
Proof.
  unfold validate_premium_feature_fee, purchase_premium_feature.
  cbn [premium_feature_fee_min_usd premium_feature_fee_max_usd
       FeeStructure_default].
  destruct (leb (dec 500 2) (prem_feature_fee_usd request)
            && leb (prem_feature_fee_usd request) (dec 1000 2)); cbn [negb];
    [|done].
  split; [|done]. rewrite record_premium_fee_run.
  destruct (ledger_premium_run (py_str (prem_user_id request))
              (prem_user_type request) (prem_feature_name request)
              (prem_feature_fee_usd request) w) as (item & -> & _).
  unfold internal_error.
  destruct (backend_fault rt (backend_calls w)); intros [=].
Qed.

(** X17.  A fee that [validate_premium_feature_fee] accepts on the
    default structure is recorded by [/premium-feature] when the store
    answers: the premium record sits in the partition [USER#<str(user_id)>]
    under [PREMIUM#<generated id>] with the feature name and the fee of the
    request, and the answer reports the payment as pending. *)
Theorem purchase_premium_feature_stores request w :
  validate_premium_feature_fee FeeStructure_default
    (prem_feature_fee_usd request) = true →
  backend_fault rt (backend_calls w) = None →
  ∃ body w' (item : Item),
    purchase_premium_feature rt request w = (Returns body, w')
    ∧ dict_get body "payment_status" JNone = JStr "pending"
    ∧ table w' !! ("USER#" +:+ py_str (prem_user_id request),
                   "PREMIUM#" +:+ uuid4 rt (uuid_calls w)) = Some item
    ∧ item !! "feature_name" = Some (VStr (prem_feature_name request))
    ∧ item !! "fee_usd" = Some (VDecimal (prem_feature_fee_usd request)).
Proof.
  unfold validate_premium_feature_fee, purchase_premium_feature.
  cbn [premium_feature_fee_min_usd premium_feature_fee_max_usd
       FeeStructure_default]. intros -> Hf. cbn [negb].
  rewrite record_premium_fee_run.
  destruct (ledger_premium_run (py_str (prem_user_id request))
              (prem_user_type request) (prem_feature_name request)
              (prem_feature_fee_usd request) w) as (item & -> & Hname & Hfee).
  rewrite Hf. eexists _, _, item. split; [reflexivity|]. split; [done|].
  cbn [table store]. by rewrite lookup_insert_eq.
Qed.


(** X19.  When the store refuses the request, [/deploy-contract],
    [/subscribe] and [/premium-feature] (for a fee in range) raise
    [HTTPException] with status 500 and a detail that interpolates the
    exception, and the table is left as it was. *)
Theorem fee_endpoints_report_store_failure w e :
  backend_fault rt (backend_calls w) = Some e →
  (∀ request, ∃ w',
     deploy_contract rt request w
     = (Raises (internal_error "Deployment fee processing failed: {}" e), w')
     ∧ table w' = table w)
  ∧ (∀ now request, ∃ w',
     subscribe_user rt now request w
     = (Raises (internal_error "Subscription processing failed: {}" e), w')
     ∧ table w' = table w)
  ∧ (∀ request,
     validate_premium_feature_fee FeeStructure_default
       (prem_feature_fee_usd request) = true →
     ∃ w',
       purchase_premium_feature rt request w
       = (Raises (internal_error "Premium feature purchase failed: {}" e), w')
       ∧ table w' = table w).
Proof.
  intros Hf. split; [|split].
  - intros request. unfold deploy_contract. rewrite record_deployment_fee_run.
    destruct (ledger_deployment_run (py_str (deploy_user_id request))
                (deploy_user_type request) (deploy_contract_type request)
                (deploy_fee_usd request) w) as (item & -> & _).
    rewrite Hf. by eexists.
  - intros now request. unfold subscribe_user.
    destruct (if String.eqb (sub_billing_cycle request) "monthly" then _ else _)
      as [next fee].
    rewrite record_subscription_fee_run.
    destruct (ledger_subscription_run (py_str (sub_user_id request))
                (sub_user_type request) (sub_plan_name request) fee w)
      as (item & -> & _).
    rewrite Hf. by eexists.
  - intros request. unfold validate_premium_feature_fee, purchase_premium_feature.
    cbn [premium_feature_fee_min_usd premium_feature_fee_max_usd
         FeeStructure_default]. intros ->. cbn [negb].
    rewrite record_premium_fee_run.
    destruct (ledger_premium_run (py_str (prem_user_id request))
                (prem_user_type request) (prem_feature_name request)
                (prem_feature_fee_usd request) w) as (item & -> & _).
    rewrite Hf. by eexists.
Qed.

Lemma get_fee_analytics_summary_default :
  ∃ summary, get_fee_analytics_summary FeeStructure_default = Ok summary.
Proof.
  destruct (get_fee_analytics_summary FeeStructure_default) as [s|e] eqn:E;
    [by eexists|]. vm_compute in E. discriminate E.
Qed.

(** X20.  [/fee-analytics] never raises: it answers with
    [success = True] and leaves the table as it is; when the store refuses
    the scan the analytics of the answer are the initial dictionary. *)
Theorem fee_analytics_endpoint_always_succeeds w :
  ∃ response w',
    Api.get_fee_analytics rt w = (Returns response, w')
    ∧ fa_success response = true
    ∧ table w' = table w
    ∧ (∀ e, backend_fault rt (backend_calls w) = Some e →
         fa_analytics response = empty_analytics).
Proof.
  unfold Api.get_fee_analytics.
  destruct get_fee_analytics_summary_default as [summary ->].
  pose proof (get_fee_analytics_table rt w) as Ht.
  pose proof (get_fee_analytics_offline rt w) as Hoff.
  destruct (get_fee_analytics_total rt w) as (a & w' & Ha).
  rewrite Ha in Ht, Hoff |- *. cbn [snd] in Ht.
  eexists _, _. split; [reflexivity|]. split; [done|]. split; [done|].
  intros e He. specialize (Hoff e He). by injection Hoff as ->.
Qed.

(** X21.  [_record_fee_analytics] is not atomic and does not report
    failures: when the deployment fee is written and the store refuses the
    write of the subscription fee, the method returns normally, the
    deployment record stays in the table, and nothing else is written. *)
Theorem record_fee_analytics_partial deal_id deal_type deal_value
    transaction_fee deployment_fee subscription_fee premium_fee user_id
    user_type w e :
  backend_fault rt (backend_calls w) = None →
  gtb subscription_fee (of_Z 0) = true →
  backend_fault rt (S (backend_calls w)) = Some e →
  ∃ w' (item : Item),
    record_fee_analytics rt deal_id deal_type deal_value transaction_fee
      deployment_fee subscription_fee premium_fee user_id user_type w
    = (Ok tt, w')
    ∧ table w'
      = <[("FEE#" +:+ uuid4 rt (uuid_calls w), "DEPLOYMENT") := item]> (table w)
    ∧ item !! "fee_usd" = Some (VDecimal deployment_fee).
Proof.
  intros Hf1 Hsub Hf2. unfold record_fee_analytics, try_except.
  rewrite run_bind.
  destruct (ledger_deployment_run (py_str user_id) user_type "sponsorship"
              deployment_fee w) as (item & -> & _ & _ & Hfee).
  rewrite Hf1, run_bind, Hsub. unfold discard. rewrite run_bind.
  destruct (ledger_subscription_run (py_str user_id) user_type "monitoring"
              subscription_fee
              (store ("FEE#" +:+ uuid4 rt (uuid_calls w)) "DEPLOYMENT" item
                 (tick_backend (tick_clock (tick_uuid w)))))
    as (item2 & -> & _).
  cbn [backend_calls store tick_backend tick_clock tick_uuid].
  rewrite Hf2. cbn beta iota. rewrite run_ret.
  eexists _, item. split; [reflexivity|]. by split.
Qed.

End Endpoints.

(** *** The statements on sample requests *)

Lemma subscribe_user_terms_witness :
  ∃ body w',
    subscribe_user sample_runtime 1705314600000000 sample_subscribe_request
      empty_world = (Returns body, w')
    ∧ dict_get body "billing_cycle" JNone = JStr "annual"
    ∧ dict_get body "monthly_fee_usd" JNone = JFloat (dec 1000 2)
    ∧ dict_get body "next_billing_date" JNone
      = JStr (iso8601 (1705314600000000 + days 365)).
Proof.
  destruct (subscribe_user sample_runtime 1705314600000000
              sample_subscribe_request empty_world) as [[body|e] w'] eqn:E.
  - exists body, w'. split; [reflexivity|].
    exact (subscribe_user_terms sample_runtime _ _ _ _ _ E).
  - vm_compute in E. discriminate E.
Defined.

Lemma subscribe_user_stored_period_witness :
  ∃ body w' (item : Item) fee,
    subscribe_user sample_runtime 1705314600000000 sample_subscribe_request
      empty_world = (Returns body, w')
    ∧ table w' !! ("USER#" +:+ py_str 7, "SUB#" +:+ uuid4 sample_runtime 0)
      = Some item
    ∧ item !! "plan" = Some (VStr "monitoring")
    ∧ item !! "end_date"
      = Some (VStr (iso8601 (1705314600250000 + timedelta_days 30)))
    ∧ item !! "fee_usd" = Some (VDecimal fee)
    ∧ dict_get body "monthly_fee_usd" JNone = JFloat fee
    ∧ dict_get body "next_billing_date" JNone
      = JStr (iso8601 (1705314600000000 + days 365)).
Proof.
  destruct (subscribe_user sample_runtime 1705314600000000
              sample_subscribe_request empty_world) as [[body|e] w'] eqn:E.
  - destruct (subscribe_user_stored_period sample_runtime _ _ _ _ _ E)
      as (item & fee & H). exists body, w', item, fee.
    split; [reflexivity|exact H].
  - vm_compute in E. discriminate E.
Defined.

Lemma purchase_premium_feature_refuses_witness :
  validate_premium_feature_fee FeeStructure_default (dec 1200 2) = false
  ∧ purchase_premium_feature sample_runtime (sample_premium_request (dec 1200 2))
      empty_world
    = (Raises {| status_code := 400;
                 detail := JStr "Premium feature fee must be between $5 and $10" |},
       empty_world).
Proof.
  assert (H : validate_premium_feature_fee FeeStructure_default (dec 1200 2)
              = false) by (vm_compute; reflexivity).
  split; [exact H|].
  exact (proj2 (purchase_premium_feature_refuses sample_runtime
                  (sample_premium_request (dec 1200 2)) empty_world) H).
Defined.

Lemma purchase_premium_feature_stores_witness :
  ∃ body w' (item : Item),
    purchase_premium_feature sample_runtime (sample_premium_request (dec 700 2))
      empty_world = (Returns body, w')
    ∧ dict_get body "payment_status" JNone = JStr "pending"
    ∧ table w' !! ("USER#" +:+ py_str 7, "PREMIUM#" +:+ uuid4 sample_runtime 0)
      = Some item
    ∧ item !! "feature_name" = Some (VStr "priority_oracle")
    ∧ item !! "fee_usd" = Some (VDecimal (dec 700 2)).
Proof.
  apply (purchase_premium_feature_stores sample_runtime
           (sample_premium_request (dec 700 2)) empty_world).
  - vm_compute. reflexivity.
  - reflexivity.
Defined.


Lemma fee_endpoints_report_store_failure_witness :
  ∃ w',
    deploy_contract offline_runtime (sample_deploy_request (dec 1250 2))
      empty_world
    = (Raises (internal_error "Deployment fee processing failed: {}"
                 (BackendError "EndpointConnectionError")), w')
    ∧ table w' = table empty_world.
Proof.
  destruct (fee_endpoints_report_store_failure offline_runtime empty_world
              (BackendError "EndpointConnectionError") eq_refl) as [H _].
  exact (H (sample_deploy_request (dec 1250 2))).
Defined.

Lemma record_fee_analytics_partial_witness :
  ∃ w' (item : Item),
    record_fee_analytics flaky_runtime "deal-1" "sponsorship" (of_Z 1000)
      (dec 4000 2) (dec 1250 2) (dec 1500 2) (dec 700 2) 7 "athlete"
      empty_world = (Ok tt, w')
    ∧ table w'
      = <[("FEE#" +:+ uuid4 flaky_runtime 0, "DEPLOYMENT") := item]>
          (table empty_world)
    ∧ item !! "fee_usd" = Some (VDecimal (dec 1250 2)).
Proof.
  apply (record_fee_analytics_partial flaky_runtime "deal-1" "sponsorship"
           (of_Z 1000) (dec 4000 2) (dec 1250 2) (dec 1500 2) (dec 700 2) 7
           "athlete" empty_world
           (BackendError "ProvisionedThroughputExceededException")).
  - reflexivity.
  - vm_compute. reflexivity.
  - reflexivity.
Defined.

End ApiProps.
